(** * OpenAL loopback example (examples/alloopback.c)

    A shallow embedding of the three functions of the example program,
    [RenderSDLSamples], [CreateSineWave] and [main], and the properties of
    its specification.

    - The calls into OpenAL, SDL and the C library are answered by a
      [World]: one field per call site, holding what the library returns
      there.  Every call is recorded, with its arguments and its answer, in
      the [calls] of the program state, in program order.
    - The constants and the helper [FramesToBytes] come from headers that
      are not part of the example (AL/al.h, AL/alc.h, AL/alext.h, SDL.h,
      common/alhelpers.h); they are the fields of the class [Headers].
    - C [double] arithmetic is read as arithmetic on real numbers and
      [M_PI] as the real number pi; the conversion to [ALshort] truncates
      toward zero and is undefined outside the range of the type. *)

From Stdlib Require Import ZArith List Bool Lia String Permutation.
From Stdlib Require Import Reals Lra Psatz.
Import ListNotations.

Local Open Scope string_scope.
Local Open Scope list_scope.
Local Open Scope Z_scope.

(** ** Constants of the headers *)

Class Headers := {
  (* AL/alc.h and AL/alext.h *)
  ALC_FALSE : Z;
  ALC_FREQUENCY : Z;
  ALC_FORMAT_CHANNELS_SOFT : Z;
  ALC_FORMAT_TYPE_SOFT : Z;
  ALC_MONO_SOFT : Z;
  ALC_STEREO_SOFT : Z;
  ALC_BYTE_SOFT : Z;
  ALC_UNSIGNED_BYTE_SOFT : Z;
  ALC_SHORT_SOFT : Z;
  ALC_UNSIGNED_SHORT_SOFT : Z;
  (* AL/al.h *)
  AL_NO_ERROR : Z;
  AL_BUFFER : Z;
  AL_SOURCE_STATE : Z;
  AL_PLAYING : Z;
  AL_FORMAT_MONO16 : Z;
  (* SDL.h *)
  SDL_INIT_AUDIO : Z;
  AUDIO_U8 : Z;
  AUDIO_S8 : Z;
  AUDIO_U16SYS : Z;
  AUDIO_S16SYS : Z;
  (* common/alhelpers.h *)
  FramesToBytes : Z -> Z -> Z -> Z
}.

(** The four encodings the program accepts are four different values, and
    so are the markers it maps them to. *)
Record HeadersDistinct {hdr : Headers} : Prop := {
  audio_U8_S8 : AUDIO_U8 <> AUDIO_S8;
  audio_U8_U16 : AUDIO_U8 <> AUDIO_U16SYS;
  audio_U8_S16 : AUDIO_U8 <> AUDIO_S16SYS;
  audio_S8_U16 : AUDIO_S8 <> AUDIO_U16SYS;
  audio_S8_S16 : AUDIO_S8 <> AUDIO_S16SYS;
  audio_U16_S16 : AUDIO_U16SYS <> AUDIO_S16SYS;
  alc_mono_stereo : ALC_MONO_SOFT <> ALC_STEREO_SOFT;
  alc_types : NoDup [ALC_UNSIGNED_BYTE_SOFT; ALC_BYTE_SOFT;
                     ALC_UNSIGNED_SHORT_SOFT; ALC_SHORT_SOFT]
}.

(** The values of OpenAL Soft's and SDL's headers on a little-endian
    machine. *)
Definition le_headers : Headers := {|
  ALC_FALSE := 0;
  ALC_FREQUENCY := 0x1007;
  ALC_FORMAT_CHANNELS_SOFT := 0x1990;
  ALC_FORMAT_TYPE_SOFT := 0x1991;
  ALC_MONO_SOFT := 0x1500;
  ALC_STEREO_SOFT := 0x1501;
  ALC_BYTE_SOFT := 0x1400;
  ALC_UNSIGNED_BYTE_SOFT := 0x1401;
  ALC_SHORT_SOFT := 0x1402;
  ALC_UNSIGNED_SHORT_SOFT := 0x1403;
  AL_NO_ERROR := 0;
  AL_BUFFER := 0x1009;
  AL_SOURCE_STATE := 0x1010;
  AL_PLAYING := 0x1012;
  AL_FORMAT_MONO16 := 0x1101;
  SDL_INIT_AUDIO := 0x10;
  AUDIO_U8 := 0x0008;
  AUDIO_S8 := 0x8008;
  AUDIO_U16SYS := 0x0010;
  AUDIO_S16SYS := 0x8010;
  FramesToBytes := fun size chans type =>
    size * (if chans =? 0x1500 then 1 else 2)
         * (if (type =? 0x1400) || (type =? 0x1401) then 1 else 2)
|}.

(** ** Data *)

Definition NULL : Z := 0.
Definition INT_MIN : Z := -2147483648.

(** [typedef struct { ... } PlaybackInfo]; pointers are addresses, [NULL]
    is 0. *)
Record PlaybackInfo := mkPlaybackInfo {
  Device : Z;
  Context : Z;
  FrameSize : Z
}.

(** The function an [SDL_AudioSpec] names as its callback. *)
Inductive Callback := fn_RenderSDLSamples.

Record SDL_AudioSpec := mkAudioSpec {
  freq : Z;
  format : Z;
  channels : Z;
  samples : Z;
  padding : Z;
  callback : option Callback;
  userdata : Z
}.

(** [ALCint attrs[16]]: a cell is [None] until the program writes it. *)
Definition Attrs := list (option Z).

Definition attrs_uninit : Attrs := repeat None 16.

Fixpoint store (i : nat) (v : Z) (a : Attrs) : Attrs :=
  match a, i with
  | [], _ => []
  | _ :: a', O => Some v :: a'
  | x :: a', S i' => x :: store i' v a'
  end.

Definition load (i : nat) (a : Attrs) : option Z :=
  match nth_error a i with
  | Some (Some v) => Some v
  | _ => None
  end.

(** The three function pointers the program loads at run time
    ([static LPALC... alc...SOFT]); statics start as [NULL]. *)
Record Procs := mkProcs {
  alcLoopbackOpenDeviceSOFT_ptr : Z;
  alcIsRenderFormatSupportedSOFT_ptr : Z;
  alcRenderSamplesSOFT_ptr : Z
}.

(** ** External calls

    A call is recorded with its arguments and, last, with what it
    returned or wrote through its out-parameter.  [fprintf] is recorded by
    its format string; the string look-ups that only compute its
    arguments ([SDL_GetError], [alGetString], [ChannelsName], [TypeName])
    are not recorded. *)
Inductive Event :=
| E_alcIsExtensionPresent (dev : Z) (name : string) (r : Z)
| E_alcGetProcAddress (dev : Z) (name : string) (r : Z)
| E_fprintf (fmt : string)
| E_SDL_Init (flags : Z) (r : Z)
| E_SDL_OpenAudio (desired : SDL_AudioSpec) (r : Z) (obtained : SDL_AudioSpec)
| E_SDL_PauseAudio (pause_on : Z)
| E_SDL_CloseAudio
| E_SDL_Quit
| E_alcLoopbackOpenDeviceSOFT (name : Z) (r : Z)
| E_alcIsRenderFormatSupportedSOFT (dev rate chans type : Z) (r : Z)
| E_alcCreateContext (dev : Z) (attrs : Attrs) (r : Z)
| E_alcMakeContextCurrent (ctx : Z) (r : Z)
| E_alcDestroyContext (ctx : Z)
| E_alcCloseDevice (dev : Z)
| E_alcRenderSamplesSOFT (dev : Z) (stream : Z) (frames : Z)
| E_alGenBuffers (n : Z) (r : Z)
| E_alBufferData (buffer fmt : Z) (data : list Z) (size rate : Z)
| E_alGetError (r : Z)
| E_alIsBuffer (buffer : Z) (r : Z)
| E_alDeleteBuffers (n : Z) (buffer : Z)
| E_alGenSources (n : Z) (r : Z)
| E_alSourcei (source param value : Z)
| E_alSourcePlay (source : Z)
| E_Sleep (ms : Z)
| E_alGetSourcei (source param : Z) (r : option Z)
| E_alDeleteSources (n : Z) (source : Z).

(** What the libraries answer, per call site of the program. *)
Record World := mkWorld {
  w_extension_present : Z;
  w_proc_address : string -> Z;
  w_SDL_Init : Z;
  w_SDL_OpenAudio : Z;
  w_obtained : SDL_AudioSpec;
  w_loopback_device : Z;
  w_format_supported : Z;
  w_context : Z;
  w_make_current : Z;
  (* the name alGenBuffers leaves in [buffer]; 0 when it writes none *)
  w_gen_buffer : Z;
  (* alGetError in CreateSineWave *)
  w_buffer_error : Z;
  w_is_buffer : Z;
  w_gen_source : Z;
  (* alGetError in the assert of main *)
  w_source_error : Z;
  (* the k-th pass of the polling loop: what alGetSourcei writes to
     [state] ([None]: nothing) and what alGetError then returns *)
  w_source_state : nat -> option Z;
  w_poll_error : nat -> Z;
  (* where main's [playback] lives *)
  w_playback_addr : Z
}.

(** ** Program state and the monad of the program *)

Record State := mkState {
  playback : PlaybackInfo;
  procs : Procs;
  calls : list Event
}.

Definition initial_state : State :=
  mkState (mkPlaybackInfo NULL NULL 0) (mkProcs NULL NULL NULL) [].

(** How a run stops other than by falling through. *)
Inductive Halt :=
| Return (code : Z)     (* [return code] in main *)
| Abort                 (* a failed [assert] *)
| Undefined             (* undefined behaviour *)
| OutOfFuel.            (* the polling loop was cut off *)

Inductive Outcome (A : Type) :=
| Value (a : A)
| Stop (h : Halt).

Arguments Value {A} a.
Arguments Stop {A} h.

Definition M (A : Type) : Type := State -> Outcome A * State.

Definition ret {A} (a : A) : M A := fun s => (Value a, s).

Definition bind {A B} (m : M A) (k : A -> M B) : M B :=
  fun s =>
    match m s with
    | (Value a, s') => k a s'
    | (Stop h, s') => (Stop h, s')
    end.

Definition halt {A} (h : Halt) : M A := fun s => (Stop h, s).

Declare Scope prog_scope.
Delimit Scope prog_scope with prog.
Notation "x <- m ;; k" := (bind m (fun x => k))
  (at level 61, m at next level, right associativity) : prog_scope.
Notation "m ;; k" := (bind m (fun _ => k))
  (at level 61, right associativity) : prog_scope.
Local Open Scope prog_scope.

Definition emit (e : Event) : M unit :=
  fun s => (Value tt, mkState (playback s) (procs s) (calls s ++ [e])).

Definition get_playback : M PlaybackInfo := fun s => (Value (playback s), s).

Definition set_playback (p : PlaybackInfo) : M unit :=
  fun s => (Value tt, mkState p (procs s) (calls s)).

Definition get_procs : M Procs := fun s => (Value (procs s), s).

Definition set_procs (p : Procs) : M unit :=
  fun s => (Value tt, mkState (playback s) p (calls s)).

Definition when (b : bool) (m : M unit) : M unit :=
  if b then m else ret tt.

(** A call through a function pointer: undefined when it is [NULL]. *)
Definition through (ptr : Z) : M unit :=
  if ptr =? NULL then halt Undefined else ret tt.

(** Reading a cell of [attrs]. *)
Definition read (a : Attrs) (i : nat) : M Z :=
  match load i a with
  | Some v => ret v
  | None => halt Undefined
  end.

(** [a / b] on [int]. *)
Definition int_div (a b : Z) : M Z :=
  if b =? 0 then halt Undefined
  else if (a =? INT_MIN) && (b =? -1) then halt Undefined
  else ret (Z.quot a b).

(** ** The waveform of CreateSineWave (lines 68-74) *)

Definition M_PI : R := PI.

Definition ALshort_MIN : Z := -32768.
Definition ALshort_MAX : Z := 32767.

(** Conversion of a double to an integer type drops the fraction. *)
Definition truncate (x : R) : Z :=
  if Rle_dec 0 x then Zfloor x else Zceil x.

(** [(ALshort)x]: undefined when the truncated value does not fit. *)
Definition ALshort_of_double (x : R) : option Z :=
  let z := truncate x in
  if (ALshort_MIN <=? z) && (z <=? ALshort_MAX) then Some z else None.

(** [sin(i * 441.0 / 44100.0 * 2.0*M_PI)*32767.0] *)
Definition sine_value (i : Z) : R :=
  (sin (IZR i * 441 / 44100 * 2 * M_PI) * 32767)%R.

(** [for(i = 0;i < 44100;i++) data[i] = (ALshort)(...)], with [n] passes
    left and [data] the cells written so far. *)
Fixpoint fill_data (n : nat) (i : Z) (data : list Z) : option (list Z) :=
  match n with
  | O => Some data
  | S n' =>
      match ALshort_of_double (sine_value i) with
      | Some v => fill_data n' (i + 1) (data ++ [v])
      | None => None
      end
  end.

Definition CreateSineWave_data : option (list Z) :=
  fill_data (Z.to_nat 44100) 0 [].

(** The sample the specification describes:
    [round(32767 * sin(2 pi f i / sampleRate))] with [f = 441.0] and
    [sampleRate = 44100], rounding to the nearest integer, halves away
    from zero. *)
Definition spec_round (x : R) : Z :=
  if Rle_dec 0 x then Zfloor (x + 1 / 2) else Zceil (x - 1 / 2).

Definition spec_sample (i : Z) : Z :=
  spec_round (32767 * sin (2 * PI * 441 * IZR i / 44100))%R.

(** ** The program *)

Section Program.

Context {hdr : Headers}.
Variable w : World.

(** *** The library calls, as the program makes them *)

Definition alcIsExtensionPresent (dev : Z) (name : string) : M Z :=
  emit (E_alcIsExtensionPresent dev name (w_extension_present w)) ;;
  ret (w_extension_present w).

Definition alcGetProcAddress (dev : Z) (name : string) : M Z :=
  emit (E_alcGetProcAddress dev name (w_proc_address w name)) ;;
  ret (w_proc_address w name).

Definition fprintf_stderr (fmt : string) : M unit := emit (E_fprintf fmt).

Definition SDL_Init (flags : Z) : M Z :=
  emit (E_SDL_Init flags (w_SDL_Init w)) ;; ret (w_SDL_Init w).

(** [obtained] is an out-parameter; it is returned with the result. *)
Definition SDL_OpenAudio (desired : SDL_AudioSpec) : M (Z * SDL_AudioSpec) :=
  emit (E_SDL_OpenAudio desired (w_SDL_OpenAudio w) (w_obtained w)) ;;
  ret (w_SDL_OpenAudio w, w_obtained w).

Definition SDL_PauseAudio (pause_on : Z) : M unit :=
  emit (E_SDL_PauseAudio pause_on).

Definition SDL_CloseAudio : M unit := emit E_SDL_CloseAudio.

Definition SDL_Quit : M unit := emit E_SDL_Quit.

Definition alcLoopbackOpenDeviceSOFT (name : Z) : M Z :=
  p <- get_procs ;;
  through (alcLoopbackOpenDeviceSOFT_ptr p) ;;
  emit (E_alcLoopbackOpenDeviceSOFT name (w_loopback_device w)) ;;
  ret (w_loopback_device w).

Definition alcIsRenderFormatSupportedSOFT (dev rate chans type : Z) : M Z :=
  p <- get_procs ;;
  through (alcIsRenderFormatSupportedSOFT_ptr p) ;;
  emit (E_alcIsRenderFormatSupportedSOFT dev rate chans type
          (w_format_supported w)) ;;
  ret (w_format_supported w).

Definition alcRenderSamplesSOFT (dev stream frames : Z) : M unit :=
  p <- get_procs ;;
  through (alcRenderSamplesSOFT_ptr p) ;;
  emit (E_alcRenderSamplesSOFT dev stream frames).

Definition alcCreateContext (dev : Z) (attrs : Attrs) : M Z :=
  emit (E_alcCreateContext dev attrs (w_context w)) ;; ret (w_context w).

Definition alcMakeContextCurrent (ctx : Z) : M Z :=
  emit (E_alcMakeContextCurrent ctx (w_make_current w)) ;;
  ret (w_make_current w).

Definition alcDestroyContext (ctx : Z) : M unit :=
  emit (E_alcDestroyContext ctx).

Definition alcCloseDevice (dev : Z) : M unit := emit (E_alcCloseDevice dev).

(** [alGenBuffers(1, &buffer)]: the new value of [buffer]. *)
Definition alGenBuffers (n : Z) : M Z :=
  emit (E_alGenBuffers n (w_gen_buffer w)) ;; ret (w_gen_buffer w).

Definition alBufferData (buffer fmt : Z) (data : list Z) (size rate : Z)
  : M unit :=
  emit (E_alBufferData buffer fmt data size rate).

(** [alGetError()] at a call site that the world answers with [r]. *)
Definition alGetError (r : Z) : M Z := emit (E_alGetError r) ;; ret r.

Definition alIsBuffer (buffer : Z) : M Z :=
  emit (E_alIsBuffer buffer (w_is_buffer w)) ;; ret (w_is_buffer w).

Definition alDeleteBuffers (n : Z) (buffer : Z) : M unit :=
  emit (E_alDeleteBuffers n buffer).

Definition alGenSources (n : Z) : M Z :=
  emit (E_alGenSources n (w_gen_source w)) ;; ret (w_gen_source w).

Definition alSourcei (source param value : Z) : M unit :=
  emit (E_alSourcei source param value).

Definition alSourcePlay (source : Z) : M unit := emit (E_alSourcePlay source).

Definition alDeleteSources (n : Z) (source : Z) : M unit :=
  emit (E_alDeleteSources n source).

Definition Sleep (ms : Z) : M unit := emit (E_Sleep ms).

(** [alGetSourcei(source, param, &state)] in pass [k] of the polling loop:
    the new value of [state], which stays as it was when nothing is
    written. *)
Definition alGetSourcei (k : nat) (source param : Z) (state : option Z)
  : M (option Z) :=
  emit (E_alGetSourcei source param (w_source_state w k)) ;;
  ret (match w_source_state w k with
       | Some v => Some v
       | None => state
       end).

(** *** RenderSDLSamples (lines 57-61)

    [userdata] is dereferenced as a [PlaybackInfo]; the only such object is
    main's [playback]. *)
Definition RenderSDLSamples (userdata : Z) (stream : Z) (len : Z) : M unit :=
  if negb (userdata =? w_playback_addr w) then halt Undefined else
  playback <- get_playback ;;
  frames <- int_div len (FrameSize playback) ;;
  alcRenderSamplesSOFT (Device playback) stream frames.

(** *** CreateSineWave (lines 66-92) *)
Definition CreateSineWave : M Z :=
  match CreateSineWave_data with
  | None => halt Undefined
  | Some data =>
      let buffer := 0 in
      buffer <- alGenBuffers 1 ;;
      (* sizeof(data) = 44100 * sizeof(ALshort) *)
      alBufferData buffer AL_FORMAT_MONO16 data (44100 * 2) 44100 ;;
      err <- alGetError (w_buffer_error w) ;;
      if negb (err =? AL_NO_ERROR) then
        fprintf_stderr "OpenAL Error: %s\n" ;;
        is_buf <- alIsBuffer buffer ;;
        when (negb (is_buf =? 0)) (alDeleteBuffers 1 buffer) ;;
        ret 0
      else
        ret buffer
  end.

(** *** main (lines 95-244) *)

(** The [error:] label (lines 235-243). *)
Definition error {A} : M A :=
  SDL_CloseAudio ;;
  playback <- get_playback ;;
  when (negb (Context playback =? NULL))
       (alcDestroyContext (Context playback)) ;;
  when (negb (Device playback =? NULL))
       (alcCloseDevice (Device playback)) ;;
  SDL_Quit ;;
  halt (Return 1).

(** [LOAD_PROC(x)] for the three entry points (lines 111-115). *)
Definition load_procs : M unit :=
  p1 <- alcGetProcAddress NULL "alcLoopbackOpenDeviceSOFT" ;;
  p2 <- alcGetProcAddress NULL "alcIsRenderFormatSupportedSOFT" ;;
  p3 <- alcGetProcAddress NULL "alcRenderSamplesSOFT" ;;
  set_procs (mkProcs p1 p2 p3).

(** Lines 139-168: the attribute list from what SDL obtained. *)
Definition set_attrs (obtained : SDL_AudioSpec) : M Attrs :=
  let attrs := attrs_uninit in
  let attrs := store 0 ALC_FORMAT_CHANNELS_SOFT attrs in
  attrs <- (if channels obtained =? 1 then
              ret (store 1 ALC_MONO_SOFT attrs)
            else if channels obtained =? 2 then
              ret (store 1 ALC_STEREO_SOFT attrs)
            else
              fprintf_stderr "Unhandled SDL channel count: %d\n" ;;
              error) ;;
  let attrs := store 2 ALC_FORMAT_TYPE_SOFT attrs in
  attrs <- (if format obtained =? AUDIO_U8 then
              ret (store 3 ALC_UNSIGNED_BYTE_SOFT attrs)
            else if format obtained =? AUDIO_S8 then
              ret (store 3 ALC_BYTE_SOFT attrs)
            else if format obtained =? AUDIO_U16SYS then
              ret (store 3 ALC_UNSIGNED_SHORT_SOFT attrs)
            else if format obtained =? AUDIO_S16SYS then
              ret (store 3 ALC_SHORT_SOFT attrs)
            else
              fprintf_stderr "Unhandled SDL format: 0x%04x\n" ;;
              error) ;;
  let attrs := store 4 ALC_FREQUENCY attrs in
  let attrs := store 5 (freq obtained) attrs in
  let attrs := store 6 0 attrs in
  ret attrs.

(** Lines 215-218: the [do ... while] loop, from its pass [k] on, with
    [state] as the variable stands; [fuel] bounds the number of passes. *)
Fixpoint poll (fuel : nat) (k : nat) (source : Z) (state : option Z)
  : M unit :=
  match fuel with
  | O => halt OutOfFuel
  | S fuel' =>
      Sleep 10 ;;
      state <- alGetSourcei k source AL_SOURCE_STATE state ;;
      err <- alGetError (w_poll_error w k) ;;
      if err =? AL_NO_ERROR then
        match state with
        | None => halt Undefined
        | Some st =>
            if st =? AL_PLAYING then poll fuel' (S k) source state
            else ret tt
        end
      else ret tt
  end.

Definition main (fuel : nat) : M unit :=
  set_playback (mkPlaybackInfo NULL NULL 0) ;;
  present <- alcIsExtensionPresent NULL "ALC_SOFT_loopback" ;;
  if present =? 0 then
    fprintf_stderr "Error: ALC_SOFT_loopback not supported!\n" ;;
    halt (Return 1)
  else
  load_procs ;;
  r <- SDL_Init SDL_INIT_AUDIO ;;
  if r =? -1 then
    fprintf_stderr "Failed to init SDL audio: %s\n" ;;
    halt (Return 1)
  else
  let desired :=
    mkAudioSpec 44100 AUDIO_S16SYS 2 4096 0
                (Some fn_RenderSDLSamples) (w_playback_addr w) in
  ro <- SDL_OpenAudio desired ;;
  let obtained := snd ro in
  if negb (fst ro =? 0) then
    SDL_Quit ;;
    fprintf_stderr "Failed to open SDL audio: %s\n" ;;
    halt (Return 1)
  else
  attrs <- set_attrs obtained ;;
  dev <- alcLoopbackOpenDeviceSOFT NULL ;;
  playback <- get_playback ;;
  set_playback (mkPlaybackInfo dev (Context playback) (FrameSize playback)) ;;
  if dev =? NULL then
    fprintf_stderr "Failed to open loopback device!\n" ;;
    error
  else
  a5 <- read attrs 5 ;;
  a1 <- read attrs 1 ;;
  a3 <- read attrs 3 ;;
  ok <- alcIsRenderFormatSupportedSOFT dev a5 a1 a3 ;;
  if ok =? ALC_FALSE then
    fprintf_stderr "Render format not supported: %s, %s, %dhz\n" ;;
    error
  else
  ctx <- alcCreateContext dev attrs ;;
  playback <- get_playback ;;
  set_playback (mkPlaybackInfo (Device playback) ctx (FrameSize playback)) ;;
  failed <- (if ctx =? NULL then ret true
             else cur <- alcMakeContextCurrent ctx ;; ret (cur =? ALC_FALSE)) ;;
  if (failed : bool) then
    fprintf_stderr "Failed to set an OpenAL audio context\n" ;;
    error
  else
  a1 <- read attrs 1 ;;
  a3 <- read attrs 3 ;;
  playback <- get_playback ;;
  set_playback (mkPlaybackInfo (Device playback) (Context playback)
                               (FramesToBytes 1 a1 a3)) ;;
  SDL_PauseAudio 0 ;;
  buffer <- CreateSineWave ;;
  if buffer =? 0 then
    SDL_CloseAudio ;;
    playback <- get_playback ;;
    alcDestroyContext (Context playback) ;;
    alcCloseDevice (Device playback) ;;
    SDL_Quit ;;
    halt (Return 1)
  else
  let source := 0 in
  source <- alGenSources 1 ;;
  alSourcei source AL_BUFFER buffer ;;
  err <- alGetError (w_source_error w) ;;
  if negb (err =? AL_NO_ERROR) then halt Abort else
  alSourcePlay source ;;
  poll fuel 0 source None ;;
  alDeleteSources 1 source ;;
  alDeleteBuffers 1 buffer ;;
  SDL_PauseAudio 1 ;;
  SDL_CloseAudio ;;
  playback <- get_playback ;;
  alcDestroyContext (Context playback) ;;
  alcCloseDevice (Device playback) ;;
  SDL_Quit ;;
  halt (Return 0).

(** A run of the program from its start. *)
Definition run_main (fuel : nat) : Outcome unit * State :=
  main fuel initial_state.

End Program.

(** ** Notions the properties are stated with *)

(** The samples of the waveform, index by index. *)
Definition sine_samples : list Z :=
  map (fun k => truncate (sine_value (Z.of_nat k))) (seq 0 (Z.to_nat 44100)).

Section Notions.

Context {hdr : Headers}.

(** The channel counts and the encodings the specification lists as
    supported, each with its marker. *)
Definition supported_channels : list (Z * Z) :=
  [(1, ALC_MONO_SOFT); (2, ALC_STEREO_SOFT)].

Definition supported_formats : list (Z * Z) :=
  [(AUDIO_U8, ALC_UNSIGNED_BYTE_SOFT); (AUDIO_S8, ALC_BYTE_SOFT);
   (AUDIO_U16SYS, ALC_UNSIGNED_SHORT_SOFT); (AUDIO_S16SYS, ALC_SHORT_SOFT)].

Definition supported_channel (ch : Z) : bool :=
  existsb (fun p => ch =? fst p) supported_channels.

Definition supported_format (fmt : Z) : bool :=
  existsb (fun p => fmt =? fst p) supported_formats.

(** The attribute list for a channel marker, a type marker and a rate:
    three pairs, the zero that ends the list, and the cells of the array
    that stay unwritten. *)
Definition attrs_of (chans type rate : Z) : Attrs :=
  [Some ALC_FORMAT_CHANNELS_SOFT; Some chans;
   Some ALC_FORMAT_TYPE_SOFT; Some type;
   Some ALC_FREQUENCY; Some rate;
   Some 0] ++ repeat None 9.

(** The variable [state] after pass [k] of the polling loop. *)
Fixpoint observed (w : World) (k : nat) : option Z :=
  match w_source_state w k, k with
  | Some v, _ => Some v
  | None, O => None
  | None, S k' => observed w k'
  end.

(** The loop condition after pass [k]: no error on the query and the
    state observed is "playing". *)
Definition keeps_polling (w : World) (k : nat) : bool :=
  (w_poll_error w k =? AL_NO_ERROR) &&
  match observed w k with
  | Some st => st =? AL_PLAYING
  | None => false
  end.

(** The calls of pass [k] of the loop. *)
Definition pass_events (w : World) (source : Z) (k : nat) : list Event :=
  [E_Sleep 10;
   E_alGetSourcei source AL_SOURCE_STATE (w_source_state w k);
   E_alGetError (w_poll_error w k)].

(** The three entry points were found. *)
Definition procs_loaded (w : World) : Prop :=
  w_proc_address w "alcLoopbackOpenDeviceSOFT" <> NULL /\
  w_proc_address w "alcIsRenderFormatSupportedSOFT" <> NULL /\
  w_proc_address w "alcRenderSamplesSOFT" <> NULL.

(** What OpenAL promises about a buffer name: when neither [alGenBuffers]
    nor [alBufferData] left an error, [alGenBuffers] has written a name,
    and names are not 0. *)
Definition buffer_named (w : World) : Prop :=
  w_buffer_error w = AL_NO_ERROR -> w_gen_buffer w <> 0.

(** ... and [alIsBuffer] recognises the name [alGenBuffers] has just
    written.  Nothing is asked about the name 0, for which OpenAL
    answers true as well. *)
Definition buffer_recognised (w : World) : Prop :=
  w_gen_buffer w <> 0 -> w_is_buffer w <> 0.

(** The failures the specification lists for the exit code 1. *)
Definition setup_fails (w : World) : Prop :=
  w_extension_present w = 0 \/
  w_SDL_Init w = -1 \/
  w_SDL_OpenAudio w <> 0.

Definition negotiation_fails (w : World) : Prop :=
  supported_channel (channels (w_obtained w)) = false \/
  supported_format (format (w_obtained w)) = false \/
  w_format_supported w = ALC_FALSE.

Definition device_fails (w : World) : Prop :=
  w_loopback_device w = NULL \/
  w_context w = NULL \/
  w_make_current w = ALC_FALSE.

Definition buffer_fails (w : World) : Prop :=
  w_buffer_error w <> AL_NO_ERROR \/ w_gen_buffer w = 0.

(** Any of the failures the specification lists for the exit code 1. *)
Definition fails (w : World) : Prop :=
  setup_fails w \/ negotiation_fails w \/ device_fails w \/ buffer_fails w.

End Notions.

(** *** Resources *)

Inductive Resource :=
| R_SDL
| R_Audio
| R_Device (dev : Z)
| R_Context (ctx : Z)
| R_Buffer (buffer : Z)
| R_Source (source : Z).

(** The resource a call acquires, if it succeeds in acquiring one. *)
Definition acquires (e : Event) : option Resource :=
  match e with
  | E_SDL_Init _ r => if r =? -1 then None else Some R_SDL
  | E_SDL_OpenAudio _ r _ => if r =? 0 then Some R_Audio else None
  | E_alcLoopbackOpenDeviceSOFT _ r =>
      if r =? NULL then None else Some (R_Device r)
  | E_alcCreateContext _ _ r => if r =? NULL then None else Some (R_Context r)
  | E_alGenBuffers _ r => if r =? 0 then None else Some (R_Buffer r)
  | E_alGenSources _ r => if r =? 0 then None else Some (R_Source r)
  | _ => None
  end.

(** The resource a call releases. *)
Definition releases (e : Event) : option Resource :=
  match e with
  | E_SDL_Quit => Some R_SDL
  | E_SDL_CloseAudio => Some R_Audio
  | E_alcCloseDevice dev => Some (R_Device dev)
  | E_alcDestroyContext ctx => Some (R_Context ctx)
  | E_alDeleteBuffers _ b => Some (R_Buffer b)
  | E_alDeleteSources _ s => Some (R_Source s)
  | _ => None
  end.

Fixpoint collect {A B} (f : A -> option B) (l : list A) : list B :=
  match l with
  | [] => []
  | x :: l' =>
      match f x with
      | Some y => y :: collect f l'
      | None => collect f l'
      end
  end.

Definition acquired (t : list Event) : list Resource := collect acquires t.
Definition released (t : list Event) : list Resource := collect releases t.



(** A resource behind a handle or a name that is not null.  Deleting the
    name 0 or closing [NULL] releases nothing. *)
Definition named (r : Resource) : bool :=
  match r with
  | R_SDL | R_Audio => true
  | R_Device h | R_Context h => negb (h =? NULL)
  | R_Buffer n | R_Source n => negb (n =? 0)
  end.


(** *** Worlds to run the program in *)

Definition obtained_stereo16 : SDL_AudioSpec :=
  mkAudioSpec 44100 0x8010 2 4096 0 (Some fn_RenderSDLSamples) 4096.

(** Everything succeeds; the source is seen playing twice and then
    stopped (0x1014). *)
Definition world_ok : World := {|
  w_extension_present := 1;
  w_proc_address := fun _ => 7;
  w_SDL_Init := 0;
  w_SDL_OpenAudio := 0;
  w_obtained := obtained_stereo16;
  w_loopback_device := 100;
  w_format_supported := 1;
  w_context := 200;
  w_make_current := 1;
  w_gen_buffer := 1;
  w_buffer_error := 0;
  w_is_buffer := 1;
  w_gen_source := 1;
  w_source_error := 0;
  w_source_state := fun k => if (k <? 2)%nat then Some 0x1012 else Some 0x1014;
  w_poll_error := fun _ => 0;
  w_playback_addr := 4096
|}.


(** As [world_ok], but SDL obtained three channels. *)
Definition world_three_channels : World := {|
  w_extension_present := 1;
  w_proc_address := fun _ => 7;
  w_SDL_Init := 0;
  w_SDL_OpenAudio := 0;
  w_obtained :=
    mkAudioSpec 44100 0x8010 3 4096 0 (Some fn_RenderSDLSamples) 4096;
  w_loopback_device := 100;
  w_format_supported := 1;
  w_context := 200;
  w_make_current := 1;
  w_gen_buffer := 1;
  w_buffer_error := 0;
  w_is_buffer := 1;
  w_gen_source := 1;
  w_source_error := 0;
  w_source_state := fun k => if (k <? 2)%nat then Some 0x1012 else Some 0x1014;
  w_poll_error := fun _ => 0;
  w_playback_addr := 4096
|}.

(** *** The calls of the program, path by path *)

(** The state after some more calls. *)
Definition log (s : State) (evs : list Event) : State :=
  mkState (playback s) (procs s) (calls s ++ evs).

(** The calls of the [error:] label for a given [playback]. *)
Definition error_events (p : PlaybackInfo) : list Event :=
  E_SDL_CloseAudio ::
  (if Context p =? NULL then [] else [E_alcDestroyContext (Context p)]) ++
  (if Device p =? NULL then [] else [E_alcCloseDevice (Device p)]) ++
  [E_SDL_Quit].

Section Paths.

Context {hdr : Headers}.
Variable w : World.

(** The variable [state] at the start of pass [k]. *)
Definition state_before (k : nat) : option Z :=
  match k with
  | O => None
  | S k' => observed w k'
  end.

(** The calls of the passes [k], ..., [k + n - 1] of the polling loop. *)
Definition passes (source : Z) (k n : nat) : list Event :=
  flat_map (pass_events w source) (seq k n).

(** The calls of CreateSineWave. *)
Definition CreateSineWave_events : list Event :=
  [E_alGenBuffers 1 (w_gen_buffer w);
   E_alBufferData (w_gen_buffer w) AL_FORMAT_MONO16 sine_samples
                  (44100 * 2) 44100;
   E_alGetError (w_buffer_error w)] ++
  (if w_buffer_error w =? AL_NO_ERROR then []
   else [E_fprintf "OpenAL Error: %s\n";
         E_alIsBuffer (w_gen_buffer w) (w_is_buffer w)] ++
        (if w_is_buffer w =? 0 then []
         else [E_alDeleteBuffers 1 (w_gen_buffer w)])).

(** What CreateSineWave returns. *)
Definition CreateSineWave_result : Z :=
  if w_buffer_error w =? AL_NO_ERROR then w_gen_buffer w else 0.

Definition desired_spec : SDL_AudioSpec :=
  mkAudioSpec 44100 AUDIO_S16SYS 2 4096 0
              (Some fn_RenderSDLSamples) (w_playback_addr w).

(** The calls of main up to each of its steps; [m] and [t] are the
    channel marker and the type marker of the attribute list. *)
Definition t_probe : list Event :=
  [E_alcIsExtensionPresent NULL "ALC_SOFT_loopback" (w_extension_present w)].

Definition t_init : list Event :=
  t_probe ++
  [E_alcGetProcAddress NULL "alcLoopbackOpenDeviceSOFT"
     (w_proc_address w "alcLoopbackOpenDeviceSOFT");
   E_alcGetProcAddress NULL "alcIsRenderFormatSupportedSOFT"
     (w_proc_address w "alcIsRenderFormatSupportedSOFT");
   E_alcGetProcAddress NULL "alcRenderSamplesSOFT"
     (w_proc_address w "alcRenderSamplesSOFT");
   E_SDL_Init SDL_INIT_AUDIO (w_SDL_Init w)].

Definition t_open : list Event :=
  t_init ++ [E_SDL_OpenAudio desired_spec (w_SDL_OpenAudio w) (w_obtained w)].

Definition t_device : list Event :=
  t_open ++ [E_alcLoopbackOpenDeviceSOFT NULL (w_loopback_device w)].

Definition t_format (m t : Z) : list Event :=
  t_device ++
  [E_alcIsRenderFormatSupportedSOFT (w_loopback_device w)
     (freq (w_obtained w)) m t (w_format_supported w)].

Definition t_context (m t : Z) : list Event :=
  t_format m t ++
  [E_alcCreateContext (w_loopback_device w)
     (attrs_of m t (freq (w_obtained w))) (w_context w)].

Definition t_current (m t : Z) : list Event :=
  t_context m t ++
  [E_alcMakeContextCurrent (w_context w) (w_make_current w)].

Definition t_buffer (m t : Z) : list Event :=
  t_current m t ++ [E_SDL_PauseAudio 0] ++ CreateSineWave_events.

Definition t_source (m t : Z) : list Event :=
  t_buffer m t ++
  [E_alGenSources 1 (w_gen_source w);
   E_alSourcei (w_gen_source w) AL_BUFFER CreateSineWave_result;
   E_alGetError (w_source_error w)].

Definition t_played (m t : Z) (n : nat) : list Event :=
  t_source m t ++
  [E_alSourcePlay (w_gen_source w)] ++ passes (w_gen_source w) 0 n.

(** The teardown at the end of main (lines 221-231). *)
Definition t_finish : list Event :=
  [E_alDeleteSources 1 (w_gen_source w);
   E_alDeleteBuffers 1 CreateSineWave_result;
   E_SDL_PauseAudio 1;
   E_SDL_CloseAudio;
   E_alcDestroyContext (w_context w);
   E_alcCloseDevice (w_loopback_device w);
   E_SDL_Quit].

(** How the polling loop of a run with [fuel] ends, and after how many
    passes. *)
Definition poll_ends (fuel : nat) (o : Outcome unit) (n : nat) : Prop :=
  poll w fuel 0 (w_gen_source w) None initial_state =
  (o, log initial_state (passes (w_gen_source w) 0 n)).

(** The paths through main, how each ends and the calls made on it, in
    four stages.  Last stage: from the start of playback on. *)
Inductive play_path (fuel : nat) : Z -> Z -> Outcome unit -> list Event -> Prop :=
| path_no_buffer m t :
    (CreateSineWave_result =? 0) = true ->
    play_path fuel m t (Stop (Return 1))
      (t_buffer m t ++
       [E_SDL_CloseAudio; E_alcDestroyContext (w_context w);
        E_alcCloseDevice (w_loopback_device w); E_SDL_Quit])
| path_assert m t :
    (CreateSineWave_result =? 0) = false ->
    (w_source_error w =? AL_NO_ERROR) = false ->
    play_path fuel m t (Stop Abort)
      (t_source m t)
| path_cut_off m t h n :
    (CreateSineWave_result =? 0) = false ->
    (w_source_error w =? AL_NO_ERROR) = true ->
    poll_ends fuel (Stop h) n ->
    h = Undefined \/ h = OutOfFuel ->
    play_path fuel m t (Stop h) (t_played m t n)
| path_played m t n :
    (CreateSineWave_result =? 0) = false ->
    (w_source_error w =? AL_NO_ERROR) = true ->
    poll_ends fuel (Value tt) n ->
    play_path fuel m t (Stop (Return 0)) (t_played m t n ++ t_finish).

(** From the check of the render format on. *)
Inductive context_path (fuel : nat) : Z -> Z -> Outcome unit -> list Event -> Prop :=
| path_format_unloaded m t :
    (w_proc_address w "alcIsRenderFormatSupportedSOFT" =? NULL) = true ->
    context_path fuel m t (Stop Undefined) t_device
| path_not_renderable m t :
    (w_proc_address w "alcIsRenderFormatSupportedSOFT" =? NULL) = false ->
    (w_format_supported w =? ALC_FALSE) = true ->
    context_path fuel m t (Stop (Return 1))
      (t_format m t ++
       [E_fprintf "Render format not supported: %s, %s, %dhz\n";
        E_SDL_CloseAudio; E_alcCloseDevice (w_loopback_device w); E_SDL_Quit])
| path_no_context m t :
    (w_proc_address w "alcIsRenderFormatSupportedSOFT" =? NULL) = false ->
    (w_format_supported w =? ALC_FALSE) = false ->
    (w_context w =? NULL) = true ->
    context_path fuel m t (Stop (Return 1))
      (t_context m t ++
       [E_fprintf "Failed to set an OpenAL audio context\n";
        E_SDL_CloseAudio; E_alcCloseDevice (w_loopback_device w); E_SDL_Quit])
| path_not_current m t :
    (w_proc_address w "alcIsRenderFormatSupportedSOFT" =? NULL) = false ->
    (w_format_supported w =? ALC_FALSE) = false ->
    (w_context w =? NULL) = false ->
    (w_make_current w =? ALC_FALSE) = true ->
    context_path fuel m t (Stop (Return 1))
      (t_current m t ++
       [E_fprintf "Failed to set an OpenAL audio context\n";
        E_SDL_CloseAudio; E_alcDestroyContext (w_context w);
        E_alcCloseDevice (w_loopback_device w); E_SDL_Quit])
| path_context m t o tr :
    (w_proc_address w "alcIsRenderFormatSupportedSOFT" =? NULL) = false ->
    (w_format_supported w =? ALC_FALSE) = false ->
    (w_context w =? NULL) = false ->
    (w_make_current w =? ALC_FALSE) = false ->
    play_path fuel m t o tr ->
    context_path fuel m t o tr.

(** From the opening of the loopback device on. *)
Inductive device_path (fuel : nat) : Z -> Z -> Outcome unit -> list Event -> Prop :=
| path_open_unloaded m t :
    (w_proc_address w "alcLoopbackOpenDeviceSOFT" =? NULL) = true ->
    device_path fuel m t (Stop Undefined) t_open
| path_no_device m t :
    (w_proc_address w "alcLoopbackOpenDeviceSOFT" =? NULL) = false ->
    (w_loopback_device w =? NULL) = true ->
    device_path fuel m t (Stop (Return 1))
      (t_device ++ [E_fprintf "Failed to open loopback device!\n";
                    E_SDL_CloseAudio; E_SDL_Quit])
| path_opened m t o tr :
    (w_proc_address w "alcLoopbackOpenDeviceSOFT" =? NULL) = false ->
    (w_loopback_device w =? NULL) = false ->
    context_path fuel m t o tr ->
    device_path fuel m t o tr.

(** From the start of main. *)
Inductive main_path (fuel : nat) : Outcome unit -> list Event -> Prop :=
| path_no_extension :
    (w_extension_present w =? 0) = true ->
    main_path fuel (Stop (Return 1))
      (t_probe ++ [E_fprintf "Error: ALC_SOFT_loopback not supported!\n"])
| path_no_SDL :
    (w_extension_present w =? 0) = false ->
    (w_SDL_Init w =? -1) = true ->
    main_path fuel (Stop (Return 1))
      (t_init ++ [E_fprintf "Failed to init SDL audio: %s\n"])
| path_no_audio :
    (w_extension_present w =? 0) = false ->
    (w_SDL_Init w =? -1) = false ->
    (w_SDL_OpenAudio w =? 0) = false ->
    main_path fuel (Stop (Return 1))
      (t_open ++ [E_SDL_Quit; E_fprintf "Failed to open SDL audio: %s\n"])
| path_unhandled msg :
    (w_extension_present w =? 0) = false ->
    (w_SDL_Init w =? -1) = false ->
    (w_SDL_OpenAudio w =? 0) = true ->
    supported_channel (channels (w_obtained w)) = false \/
    supported_format (format (w_obtained w)) = false ->
    main_path fuel (Stop (Return 1))
      (t_open ++ [E_fprintf msg; E_SDL_CloseAudio; E_SDL_Quit])
| path_negotiated m t o tr :
    (w_extension_present w =? 0) = false ->
    (w_SDL_Init w =? -1) = false ->
    (w_SDL_OpenAudio w =? 0) = true ->
    In (channels (w_obtained w), m) supported_channels ->
    In (format (w_obtained w), t) supported_formats ->
    supported_channel (channels (w_obtained w)) = true ->
    supported_format (format (w_obtained w)) = true ->
    device_path fuel m t o tr ->
    main_path fuel o tr.

End Paths.

(** *** Measures of the waveform and of the calls *)

(** The sum of a list of samples. *)
Definition sum_samples (l : list Z) : Z := fold_right Z.add 0 l.

(** The diagnostics among some calls: what was printed to [stderr]. *)
Definition is_diagnostic (e : Event) : bool :=
  match e with
  | E_fprintf _ => true
  | _ => false
  end.

Definition diagnostics (t : list Event) : nat :=
  List.length (filter is_diagnostic t).

(** *** A world in which no buffer can be generated *)

(** As [world_ok], but [alGenBuffers] fails: it writes no name and leaves
    an error (0xA005, AL_OUT_OF_MEMORY); [alIsBuffer] answers true for
    the name 0, as OpenAL does. *)
Definition world_genfail : World := {|
  w_extension_present := 1;
  w_proc_address := fun _ => 7;
  w_SDL_Init := 0;
  w_SDL_OpenAudio := 0;
  w_obtained := obtained_stereo16;
  w_loopback_device := 100;
  w_format_supported := 1;
  w_context := 200;
  w_make_current := 1;
  w_gen_buffer := 0;
  w_buffer_error := 0xA005;
  w_is_buffer := 1;
  w_gen_source := 1;
  w_source_error := 0;
  w_source_state := fun k => if (k <? 2)%nat then Some 0x1012 else Some 0x1014;
  w_poll_error := fun _ => 0;
  w_playback_addr := 4096
|}.

(** *** What the callback finds once playback started *)

Section Started.

Context {hdr : Headers}.

(** [playback] and the entry points as main leaves them for the
    callback: the device and the context it created, and the frame size
    of the format it negotiated. *)
Definition started (w : World) (s : State) : Prop :=
  exists m t,
    In (channels (w_obtained w), m) supported_channels /\
    In (format (w_obtained w), t) supported_formats /\
    w_loopback_device w <> NULL /\
    w_context w <> NULL /\
    playback s =
      mkPlaybackInfo (w_loopback_device w) (w_context w)
                     (FramesToBytes 1 m t) /\
    procs s =
      mkProcs (w_proc_address w "alcLoopbackOpenDeviceSOFT")
              (w_proc_address w "alcIsRenderFormatSupportedSOFT")
              (w_proc_address w "alcRenderSamplesSOFT").

End Started.

(** *** More worlds *)

(** As [world_ok], but the context cannot be made current. *)
Definition world_not_current : World := {|
  w_extension_present := 1;
  w_proc_address := fun _ => 7;
  w_SDL_Init := 0;
  w_SDL_OpenAudio := 0;
  w_obtained := obtained_stereo16;
  w_loopback_device := 100;
  w_format_supported := 1;
  w_context := 200;
  w_make_current := 0;
  w_gen_buffer := 1;
  w_buffer_error := 0;
  w_is_buffer := 1;
  w_gen_source := 1;
  w_source_error := 0;
  w_source_state := fun k => if (k <? 2)%nat then Some 0x1012 else Some 0x1014;
  w_poll_error := fun _ => 0;
  w_playback_addr := 4096
|}.

(** As [world_ok], but setting up the source leaves an error (0xA001,
    AL_INVALID_NAME). *)
Definition world_assert : World := {|
  w_extension_present := 1;
  w_proc_address := fun _ => 7;
  w_SDL_Init := 0;
  w_SDL_OpenAudio := 0;
  w_obtained := obtained_stereo16;
  w_loopback_device := 100;
  w_format_supported := 1;
  w_context := 200;
  w_make_current := 1;
  w_gen_buffer := 1;
  w_buffer_error := 0;
  w_is_buffer := 1;
  w_gen_source := 0;
  w_source_error := 0xA001;
  w_source_state := fun k => if (k <? 2)%nat then Some 0x1012 else Some 0x1014;
  w_poll_error := fun _ => 0;
  w_playback_addr := 4096
|}.

(** As [world_ok], but the state queries write nothing and report no
    error. *)
Definition world_silent : World := {|
  w_extension_present := 1;
  w_proc_address := fun _ => 7;
  w_SDL_Init := 0;
  w_SDL_OpenAudio := 0;
  w_obtained := obtained_stereo16;
  w_loopback_device := 100;
  w_format_supported := 1;
  w_context := 200;
  w_make_current := 1;
  w_gen_buffer := 1;
  w_buffer_error := 0;
  w_is_buffer := 1;
  w_gen_source := 1;
  w_source_error := 0;
  w_source_state := fun _ => None;
  w_poll_error := fun _ => 0;
  w_playback_addr := 4096
|}.

(** * Properties

    ** The waveform *)

Section Waveform.
Local Open Scope R_scope.

Lemma truncate_nonneg x : 0 <= x -> truncate x = Zfloor x.
Proof. intros H. unfold truncate. destruct (Rle_dec 0 x); [reflexivity | contradiction]. Qed.

Lemma truncate_neg x : x < 0 -> truncate x = Zceil x.
Proof. intros H. unfold truncate. destruct (Rle_dec 0 x); [lra | reflexivity]. Qed.

(** The truncated value lies between zero and [x]. *)
Lemma truncate_between x :
  (0 <= x -> 0 <= IZR (truncate x) <= x /\ x < IZR (truncate x) + 1) /\
  (x < 0 -> x <= IZR (truncate x) <= 0 /\ IZR (truncate x) - 1 < x).
Proof.
  split; intros H.
  - rewrite truncate_nonneg by assumption.
    pose proof (Zfloor_bound x) as B.
    assert (0 <= Zfloor x)%Z by (apply Zfloor_lub; simpl; lra).
    apply IZR_le in H0. lra.
  - rewrite truncate_neg by assumption.
    pose proof (Zceil_bound x) as B.
    assert (Zceil x <= 0)%Z.
    { apply le_IZR. apply Rnot_lt_le. intros C.
      assert (1 <= Zceil x)%Z by (apply lt_IZR in C; lia).
      apply IZR_le in H0. lra. }
    apply IZR_le in H0. lra.
Qed.

Lemma truncate_range (b : Z) x :
  (0 <= b)%Z -> - IZR b <= x <= IZR b -> (- b <= truncate x <= b)%Z.
Proof.
  intros Hb Hx. apply IZR_le in Hb.
  destruct (truncate_between x) as [P N].
  destruct (Rle_dec 0 x) as [H|H].
  - destruct (P H) as [[A B] _]. split; apply le_IZR; rewrite ?opp_IZR; lra.
  - assert (x < 0) as H' by lra.
    destruct (N H') as [[A B] _]. split; apply le_IZR; rewrite ?opp_IZR; lra.
Qed.

Lemma truncate_eq (z : Z) x :
  (0 <= z)%Z -> IZR z <= x < IZR z + 1 -> truncate x = z.
Proof.
  intros Hz Hx. apply IZR_le in Hz.
  rewrite truncate_nonneg by lra. apply Zfloor_eq. assumption.
Qed.

Lemma truncate_eq_neg (z : Z) x :
  (z <= 0)%Z -> IZR z - 1 < x <= IZR z -> truncate x = z.
Proof.
  intros Hz Hx. apply IZR_le in Hz.
  destruct (Req_dec x 0) as [E|E].
  - subst x. assert (z = 0%Z).
    { apply eq_IZR. lra. }
    subst z. rewrite truncate_nonneg by lra. apply Zfloor_eq. lra.
  - rewrite truncate_neg by lra. unfold Zceil.
    rewrite (Zfloor_eq (- z) (- x)); [lia|]. rewrite opp_IZR. lra.
Qed.

Lemma sine_value_bound i : -32767 <= sine_value i <= 32767.
Proof.
  unfold sine_value.
  pose proof (SIN_bound (IZR i * 441 / 44100 * 2 * M_PI)). lra.
Qed.

Lemma ALshort_of_sine i :
  ALshort_of_double (sine_value i) = Some (truncate (sine_value i)).
Proof.
  unfold ALshort_of_double.
  pose proof (truncate_range 32767 (sine_value i) ltac:(lia) (sine_value_bound i)) as H.
  unfold ALshort_MIN, ALshort_MAX.
  destruct (Z.leb_spec (-32768) (truncate (sine_value i))); [|lia].
  destruct (Z.leb_spec (truncate (sine_value i)) 32767); [|lia].
  reflexivity.
Qed.


(** The samples the loop writes, from index [i] on. *)
Lemma fill_data_eq n : forall i data,
  fill_data n i data =
  Some (data ++ map (fun k => truncate (sine_value (i + Z.of_nat k))) (seq 0 n)).
Proof.
  induction n as [|n IH]; intros i data.
  - simpl. now rewrite app_nil_r.
  - cbn [fill_data]. rewrite ALshort_of_sine, IH.
    rewrite <- app_assoc. cbn [seq map app]. rewrite <- seq_shift, map_map.
    do 3 f_equal.
    + f_equal. f_equal. lia.
    + apply map_ext. intros k. do 2 f_equal. lia.
Qed.

Lemma CreateSineWave_data_eq : CreateSineWave_data = Some sine_samples.
Proof. unfold CreateSineWave_data. rewrite fill_data_eq. reflexivity. Qed.

Lemma sine_samples_length : List.length sine_samples = Z.to_nat 44100.
Proof. unfold sine_samples. now rewrite length_map, length_seq. Qed.

Lemma sine_samples_nth i :
  (0 <= i < 44100)%Z ->
  nth_error sine_samples (Z.to_nat i) = Some (truncate (sine_value i)).
Proof.
  intros H. unfold sine_samples.
  rewrite nth_error_map, nth_error_seq.
  destruct (Nat.ltb_spec (Z.to_nat i) (Z.to_nat 44100)) as [L|L]; [|lia].
  cbn. do 3 f_equal. lia.
Qed.

Lemma sine_value_spec i :
  sine_value i = 32767 * sin (2 * PI * 441 * IZR i / 44100).
Proof.
  unfold sine_value, M_PI. rewrite Rmult_comm. do 2 f_equal. field.
Qed.

Lemma sine_value_period i (k : nat) :
  sine_value (i + 100 * Z.of_nat k) = sine_value i.
Proof.
  unfold sine_value, M_PI. f_equal.
  rewrite <- (sin_period (IZR i * 441 / 44100 * 2 * PI) k).
  f_equal. rewrite plus_IZR, mult_IZR, <- INR_IZR_INZ. field.
Qed.

Lemma sine_value_0 : sine_value 0 = 0.
Proof. unfold sine_value. replace (0 * 441 / 44100 * 2 * M_PI) with 0 by field. rewrite sin_0. ring. Qed.

Lemma sine_value_25 : sine_value 25 = 32767.
Proof.
  unfold sine_value, M_PI.
  replace (25 * 441 / 44100 * 2 * PI) with (PI / 2) by field.
  rewrite sin_PI2. ring.
Qed.

Lemma sine_value_75 : sine_value 75 = -32767.
Proof.
  unfold sine_value, M_PI.
  replace (75 * 441 / 44100 * 2 * PI) with (3 * (PI / 2)) by field.
  rewrite sin_3PI2. ring.
Qed.

Lemma sin_3a x : sin (3 * x) = 3 * sin x - 4 * (sin x * sin x * sin x).
Proof.
  replace (3 * x) with (2 * x + x) by lra.
  rewrite sin_plus, sin_2a, cos_2a_sin.
  pose proof (sin2_cos2 x) as H. unfold Rsqr in H.
  assert (Hc : cos x * cos x = 1 - sin x * sin x) by lra.
  transitivity (2 * sin x * (cos x * cos x) + (1 - 2 * sin x * sin x) * sin x); [ring|].
  rewrite Hc. ring.
Qed.

Lemma sin_PI10_root : 4 * (sin (PI/10) * sin (PI/10)) + 2 * sin (PI/10) - 1 = 0.
Proof.
  pose proof PI_RGT_0 as Hpi.
  assert (H : cos (2 * (PI/10)) = sin (3 * (PI/10))).
  { rewrite <- (sin_shift (2 * (PI/10))). f_equal. lra. }
  rewrite cos_2a_sin, sin_3a in H.
  assert (Hlt : sin (PI/10) < 1).
  { rewrite <- sin_PI2. apply sin_increasing_1; lra. }
  nra.
Qed.

Lemma sine_value_5 : 10125 + 55/100 < sine_value 5 < 10125 + 57/100.
Proof.
  unfold sine_value, M_PI.
  replace (5 * 441 / 44100 * 2 * PI) with (PI / 10) by field.
  pose proof PI_RGT_0 as Hpi.
  pose proof sin_PI10_root as Hr.
  assert (Hpos : 0 < sin (PI/10)) by (apply sin_gt_0; lra).
  split; nra.
Qed.

(** The sample at index 5 does not depend on the last digits of the
    value: whatever lies within 1/25 of it is truncated to 10125 and
    rounded to 10126. *)
Lemma sample_5_stable x :
  Rabs (x - sine_value 5) <= 1/25 ->
  truncate x = 10125%Z /\ spec_round x = 10126%Z.
Proof.
  intros H. pose proof sine_value_5 as B.
  assert (D : -(1/25) <= x - sine_value 5 <= 1/25).
  { unfold Rabs in H. destruct (Rcase_abs (x - sine_value 5)); lra. }
  split.
  - apply truncate_eq; [lia | lra].
  - unfold spec_round. destruct (Rle_dec 0 x); [|lra].
    apply Zfloor_eq. lra.
Qed.

Lemma truncate_round_close x :
  (spec_round x - 1 <= truncate x <= spec_round x + 1)%Z.
Proof.
  unfold truncate, spec_round.
  destruct (Rle_dec 0 x).
  - pose proof (Zfloor_bound x) as A. pose proof (Zfloor_bound (x + 1/2)) as B.
    split; apply Z.lt_succ_r, lt_IZR; unfold Z.succ; rewrite ?plus_IZR, ?minus_IZR; lra.
  - pose proof (Zceil_bound x) as A. pose proof (Zceil_bound (x - 1/2)) as B.
    split; apply Z.lt_succ_r, lt_IZR; unfold Z.succ; rewrite ?plus_IZR, ?minus_IZR; lra.
Qed.

End Waveform.

(** ** Runs of the parts of the program *)

Section Runs.
Context {hdr : Headers}.
Variable w : World.

Lemma log_nil s : log s [] = s.
Proof. destruct s. unfold log. cbn. now rewrite app_nil_r. Qed.

Lemma log_log s e1 e2 : log (log s e1) e2 = log s (e1 ++ e2).
Proof. unfold log. cbn. now rewrite app_assoc. Qed.

Lemma error_run A s :
  error (A:=A) s = (Stop (Return 1), log s (error_events (playback s))).
Proof.
  unfold error, error_events, log, bind, SDL_CloseAudio, SDL_Quit, get_playback, when,
    alcDestroyContext, alcCloseDevice, emit, halt, ret. cbn.
  destruct (Context (playback s) =? NULL), (Device (playback s) =? NULL); cbn;
    rewrite <- ?app_assoc; reflexivity.
Qed.

Lemma set_attrs_cases o s :
  (exists m t, In (channels o, m) supported_channels /\
               In (format o, t) supported_formats /\
               supported_channel (channels o) = true /\
               supported_format (format o) = true /\
               set_attrs o s = (Value (attrs_of m t (freq o)), s)) \/
  (exists msg, (supported_channel (channels o) = false \/
                supported_format (format o) = false) /\
               set_attrs o s =
               (Stop (Return 1), log s (E_fprintf msg :: error_events (playback s)))).
Proof.
  unfold set_attrs, supported_channel, supported_format, supported_channels,
    supported_formats.
  cbn [existsb fst].
  unfold bind, fprintf_stderr, emit, ret.
  destruct (Z.eqb_spec (channels o) 1) as [C1|C1];
    [|destruct (Z.eqb_spec (channels o) 2) as [C2|C2]].
  3: { right. eexists. split; [left; reflexivity|].
       rewrite error_run. unfold log. cbn. now rewrite <- app_assoc. }
  all: destruct (Z.eqb_spec (format o) AUDIO_U8) as [F1|F1];
    [|destruct (Z.eqb_spec (format o) AUDIO_S8) as [F2|F2];
      [|destruct (Z.eqb_spec (format o) AUDIO_U16SYS) as [F3|F3];
        [|destruct (Z.eqb_spec (format o) AUDIO_S16SYS) as [F4|F4]]]].
  all: try (left;
            refine (ex_intro _ _ (ex_intro _ _
                      (conj _ (conj _ (conj _ (conj _ eq_refl))))));
            solve [ reflexivity
                  | cbn; repeat match goal with H : _ = _ |- _ => rewrite <- H end;
                    auto 8 ]).
  all: right; eexists; (split; [right; reflexivity|]);
    rewrite error_run; unfold log; cbn; now rewrite <- app_assoc.
Qed.

Lemma CreateSineWave_run s :
  CreateSineWave w s =
  (Value (CreateSineWave_result w), log s (CreateSineWave_events w)).
Proof.
  unfold CreateSineWave. rewrite CreateSineWave_data_eq.
  unfold CreateSineWave_result, CreateSineWave_events.
  unfold bind, alGenBuffers, alBufferData, alGetError, fprintf_stderr,
    alIsBuffer, alDeleteBuffers, when, emit, ret, log, bind. cbn.
  destruct (w_buffer_error w =? AL_NO_ERROR); cbn.
  - now rewrite <- !app_assoc.
  - destruct (w_is_buffer w =? 0); cbn; now rewrite <- !app_assoc.
Qed.

Lemma observed_step k :
  match w_source_state w k with
  | Some v => Some v
  | None => state_before w k
  end = observed w k.
Proof. destruct k; cbn; destruct (w_source_state w _); reflexivity. Qed.

Lemma poll_unfold fuel k source s :
  poll w (S fuel) k source (state_before w k) s =
  if w_poll_error w k =? AL_NO_ERROR then
    match observed w k with
    | None => (Stop Undefined, log s (pass_events w source k))
    | Some st =>
        if st =? AL_PLAYING then
          poll w fuel (S k) source (state_before w (S k))
               (log s (pass_events w source k))
        else (Value tt, log s (pass_events w source k))
    end
  else (Value tt, log s (pass_events w source k)).
Proof.
  cbn [poll]. unfold bind, Sleep, alGetSourcei, alGetError, emit, ret, halt.
  cbn. rewrite observed_step.
  assert (E : mkState (playback s) (procs s)
                (((calls s ++ [E_Sleep 10]) ++
                  [E_alGetSourcei source AL_SOURCE_STATE (w_source_state w k)]) ++
                 [E_alGetError (w_poll_error w k)]) =
              log s (pass_events w source k)).
  { unfold log, pass_events. now rewrite <- !app_assoc. }
  rewrite E.
  destruct (w_poll_error w k =? AL_NO_ERROR); [|reflexivity].
  destruct (observed w k) as [st|]; [|reflexivity].
  destruct (st =? AL_PLAYING); reflexivity.
Qed.

Lemma passes_S source k n :
  passes w source k (S n) = pass_events w source k ++ passes w source (S k) n.
Proof. reflexivity. Qed.

Lemma passes_1 source k : passes w source k 1 = pass_events w source k.
Proof. unfold passes. cbn [seq flat_map]. now rewrite app_nil_r. Qed.

Lemma poll_stops n : forall fuel k source s,
  (forall j, (j < n)%nat -> keeps_polling w (k + j) = true) ->
  keeps_polling w (k + n) = false ->
  (w_poll_error w (k + n) = AL_NO_ERROR -> observed w (k + n) <> None) ->
  (n < fuel)%nat ->
  poll w fuel k source (state_before w k) s =
  (Value tt, log s (passes w source k (S n))).
Proof.
  induction n as [|n IH]; intros fuel k source s Hk Hs Hd Hf.
  - destruct fuel as [|fuel]; [lia|]. rewrite poll_unfold.
    rewrite Nat.add_0_r in Hs, Hd. unfold keeps_polling in Hs.
    rewrite passes_1.
    destruct (w_poll_error w k =? AL_NO_ERROR) eqn:E; [|reflexivity].
    apply Z.eqb_eq in E. specialize (Hd E).
    destruct (observed w k) as [st|]; [|contradiction].
    cbn in Hs. now rewrite Hs.
  - destruct fuel as [|fuel]; [lia|]. rewrite poll_unfold.
    pose proof (Hk 0%nat ltac:(lia)) as H0. rewrite Nat.add_0_r in H0.
    unfold keeps_polling in H0. apply andb_prop in H0 as [E P].
    rewrite E. destruct (observed w k) as [st|]; [|discriminate].
    rewrite P. rewrite (IH fuel (S k)).
    + rewrite log_log. now rewrite <- passes_S.
    + intros j Hj. replace (S k + j)%nat with (k + S j)%nat by lia.
      apply Hk. lia.
    + now replace (S k + n)%nat with (k + S n)%nat by lia.
    + now replace (S k + n)%nat with (k + S n)%nat by lia.
    + lia.
Qed.

Lemma poll_out_of_fuel fuel : forall k source s,
  (forall j, (j < fuel)%nat -> keeps_polling w (k + j) = true) ->
  poll w fuel k source (state_before w k) s =
  (Stop OutOfFuel, log s (passes w source k fuel)).
Proof.
  induction fuel as [|fuel IH]; intros k source s Hk.
  - cbn. unfold halt, passes. cbn. now rewrite log_nil.
  - rewrite poll_unfold.
    pose proof (Hk 0%nat ltac:(lia)) as H0. rewrite Nat.add_0_r in H0.
    unfold keeps_polling in H0. apply andb_prop in H0 as [E P].
    rewrite E. destruct (observed w k) as [st|]; [|discriminate].
    rewrite P, IH.
    + rewrite log_log. now rewrite <- passes_S.
    + intros j Hj. replace (S k + j)%nat with (k + S j)%nat by lia.
      apply Hk. lia.
Qed.

(** Whatever the world answers, the loop adds whole passes to any state
    alike, and ends in one of three ways. *)
Lemma poll_result fuel : forall k source,
  exists n o,
    (n <= fuel)%nat /\
    (o = Value tt \/ o = Stop Undefined \/ o = Stop OutOfFuel) /\
    forall s, poll w fuel k source (state_before w k) s =
              (o, log s (passes w source k n)).
Proof.
  induction fuel as [|fuel IH]; intros k source.
  - exists 0%nat, (Stop OutOfFuel). split; [lia|]. split; [auto|].
    intros s. cbn. unfold halt, passes. cbn. now rewrite log_nil.
  - destruct (IH (S k) source) as (n & o & Hn & Ho & H).
    destruct (w_poll_error w k =? AL_NO_ERROR) eqn:E.
    + destruct (observed w k) as [st|] eqn:O.
      * destruct (st =? AL_PLAYING) eqn:P.
        -- exists (S n), o. split; [lia|]. split; [assumption|].
           intros s. rewrite poll_unfold, E, O, P, H, log_log.
           now rewrite <- passes_S.
        -- exists 1%nat, (Value tt). split; [lia|]. split; [auto|].
           intros s. now rewrite poll_unfold, E, O, P, passes_1.
      * exists 1%nat, (Stop Undefined). split; [lia|]. split; [auto|].
        intros s. now rewrite poll_unfold, E, O, passes_1.
    + exists 1%nat, (Value tt). split; [lia|]. split; [auto|].
      intros s. now rewrite poll_unfold, E, passes_1.
Qed.

End Runs.

(** ** Runs of main *)

Section MainRuns.
Context {hdr : Headers}.
Variable w : World.

Ltac exec :=
  cbv beta iota zeta delta
    [bind ret halt emit get_playback set_playback get_procs set_procs
     when through read load load_procs initial_state log error_events attrs_of
     nth_error repeat
     alcIsExtensionPresent alcGetProcAddress fprintf_stderr SDL_Init SDL_OpenAudio
     SDL_PauseAudio SDL_CloseAudio SDL_Quit alcLoopbackOpenDeviceSOFT
     alcIsRenderFormatSupportedSOFT alcCreateContext alcMakeContextCurrent
     alcDestroyContext alcCloseDevice alGenSources alSourcei alSourcePlay
     alDeleteSources alDeleteBuffers alGetError
     fst snd playback procs calls Device Context FrameSize
     alcLoopbackOpenDeviceSOFT_ptr alcIsRenderFormatSupportedSOFT_ptr
     alcRenderSamplesSOFT_ptr negb];
  cbn [app].

Lemma main_path_eq fuel o t t' : main_path w fuel o t -> t = t' -> main_path w fuel o t'.
Proof. now intros H <-. Qed.

Ltac traces :=
  unfold t_finish, t_played, t_source, t_buffer, t_current, t_context, t_format,
    t_device, t_open, t_init, t_probe, desired_spec;
  rewrite <- ?app_assoc; cbn [app]; rewrite <- ?app_assoc; reflexivity.

Ltac leaf c := eapply main_path_eq; [ c | traces ].

Ltac conds :=
  change (NULL =? NULL) with true;
  repeat match goal with
         | H : (?a =? ?b) = _ |- context [?a =? ?b] => rewrite H
         end.

Ltac branch c := let E := fresh "E" in destruct c eqn:E; exec.

Ltac unwind := rewrite error_run; exec; conds; exec.

Ltac negotiated := eapply path_negotiated; [eassumption..|].
Ltac opened := negotiated; eapply path_opened; [eassumption..|].
Ltac with_context := opened; eapply path_context; [eassumption..|].

Lemma main_paths fuel :
  main_path w fuel (fst (run_main w fuel)) (calls (snd (run_main w fuel))).
Proof.
  unfold run_main, main. exec.
  branch (w_extension_present w =? 0);
    [leaf ltac:(now apply path_no_extension)|].
  branch (w_SDL_Init w =? -1); [leaf ltac:(now apply path_no_SDL)|].
  branch (w_SDL_OpenAudio w =? 0); [|leaf ltac:(now apply path_no_audio)].
  match goal with
  | |- context [set_attrs ?o ?s] =>
      destruct (set_attrs_cases o s)
        as [(m & t & Hm & Ht & Sm & St & Hrun) | (msg & Hu & Hrun)]
  end; rewrite Hrun; exec.
  2: { conds. exec. leaf ltac:(now apply path_unhandled). }
  branch (w_proc_address w "alcLoopbackOpenDeviceSOFT" =? NULL);
    [leaf ltac:(negotiated; now apply path_open_unloaded)|].
  branch (w_loopback_device w =? NULL).
  { unwind. leaf ltac:(negotiated; now apply path_no_device). }
  branch (w_proc_address w "alcIsRenderFormatSupportedSOFT" =? NULL);
    [leaf ltac:(opened; now apply path_format_unloaded)|].
  branch (w_format_supported w =? ALC_FALSE).
  { unwind. leaf ltac:(opened; now apply path_not_renderable). }
  branch (w_context w =? NULL).
  { unwind. leaf ltac:(opened; now apply path_no_context). }
  branch (w_make_current w =? ALC_FALSE).
  { unwind. leaf ltac:(opened; now apply path_not_current). }
  rewrite CreateSineWave_run. exec.
  branch (CreateSineWave_result w =? 0).
  { leaf ltac:(with_context; now apply path_no_buffer). }
  branch (w_source_error w =? AL_NO_ERROR).
  2: { leaf ltac:(with_context; now apply path_assert). }
  destruct (poll_result w fuel 0 (w_gen_source w)) as (n & o & Hn & Ho & Hp).
  change (state_before w 0) with (@None Z) in Hp.
  rewrite Hp. pose proof (Hp initial_state) as Hi.
  destruct Ho as [-> | [-> | ->]]; exec.
  - leaf ltac:(with_context; eapply path_played; eassumption).
  - leaf ltac:(with_context; eapply path_cut_off; eauto).
  - leaf ltac:(with_context; eapply path_cut_off; eauto).
Qed.
(** Once main started playback, [playback] and the entry points are set
    for the callback, and stay so to the end of the run. *)
Ltac not_started :=
  intros X; cbn [In] in X;
  repeat (destruct X as [X|X]); try discriminate X; contradiction.

Lemma main_started fuel :
  In (E_SDL_PauseAudio 0) (calls (snd (run_main w fuel))) ->
  started w (snd (run_main w fuel)).
Proof.
  unfold run_main, main. exec.
  branch (w_extension_present w =? 0); [not_started|].
  branch (w_SDL_Init w =? -1); [not_started|].
  branch (w_SDL_OpenAudio w =? 0); [|not_started].
  match goal with
  | |- context [set_attrs ?o ?s] =>
      destruct (set_attrs_cases o s)
        as [(m & t & Hm & Ht & Sm & St & Hrun) | (msg & Hu & Hrun)]
  end; rewrite Hrun; exec.
  2: { conds. exec. not_started. }
  branch (w_proc_address w "alcLoopbackOpenDeviceSOFT" =? NULL);
    [not_started|].
  branch (w_loopback_device w =? NULL).
  { unwind. not_started. }
  branch (w_proc_address w "alcIsRenderFormatSupportedSOFT" =? NULL);
    [not_started|].
  branch (w_format_supported w =? ALC_FALSE).
  { unwind. not_started. }
  branch (w_context w =? NULL).
  { unwind. not_started. }
  branch (w_make_current w =? ALC_FALSE).
  { unwind. not_started. }
  intros _.
  assert (S0 : forall s,
             playback s = mkPlaybackInfo (w_loopback_device w) (w_context w)
                            (FramesToBytes 1 m t) ->
             procs s =
               mkProcs (w_proc_address w "alcLoopbackOpenDeviceSOFT")
                 (w_proc_address w "alcIsRenderFormatSupportedSOFT")
                 (w_proc_address w "alcRenderSamplesSOFT") ->
             started w s).
  { intros s P Q. exists m, t. apply Z.eqb_neq in E3, E6. auto 8. }
  rewrite CreateSineWave_run. exec.
  branch (CreateSineWave_result w =? 0); [now apply S0|].
  branch (w_source_error w =? AL_NO_ERROR); [|now apply S0].
  destruct (poll_result w fuel 0 (w_gen_source w)) as (n & o & Hn & Ho & Hp).
  change (state_before w 0) with (@None Z) in Hp.
  rewrite Hp.
  destruct Ho as [-> | [-> | ->]]; exec; now apply S0.
Qed.

End MainRuns.

(** ** The claims about the waveform *)

(** Claim C10.  For every index [i] (so for those of the loop, 0 to
    44099) the value [sin(i * 441.0 / 44100.0 * 2.0*M_PI)*32767.0] has a
    magnitude of at most 32767, so its conversion to [ALshort] is defined
    and every sample stored lies between -32767 and 32767. *)
Theorem C10_samples_fit_ALshort :
  (forall i : Z,
      (Rabs (sine_value i) <= 32767)%R /\
      exists v, ALshort_of_double (sine_value i) = Some v /\
                -32767 <= v <= 32767) /\
  exists data, CreateSineWave_data = Some data /\
               List.length data = Z.to_nat 44100 /\
               Forall (fun v => -32767 <= v <= 32767) data.
Proof.
  split.
  - intros i. pose proof (sine_value_bound i) as B. split.
    + apply Rabs_le. lra.
    + exists (truncate (sine_value i)). split; [apply ALshort_of_sine|].
      apply (truncate_range 32767); [lia | exact B].
  - exists sine_samples. split; [apply CreateSineWave_data_eq|].
    split; [apply sine_samples_length|].
    unfold sine_samples. apply Forall_map, Forall_forall. intros k _.
    apply (truncate_range 32767); [lia | apply sine_value_bound].
Qed.

(** Claim C1 as stated fails: the sample stored at index 5 is 10125, the
    value [32767 * sin(pi / 10) = 10125.56...] with its fraction dropped,
    where rounding gives 10126. *)
Lemma C1_round_counterexample :
  exists data, CreateSineWave_data = Some data /\
               nth_error data 5 = Some 10125 /\
               spec_sample 5 = 10126 /\
               nth_error data 5 <> Some (spec_sample 5).
Proof.
  assert (T : truncate (sine_value 5) = 10125).
  { apply truncate_eq; [lia|]. pose proof sine_value_5. lra. }
  assert (S : spec_sample 5 = 10126).
  { unfold spec_sample. rewrite <- sine_value_spec. unfold spec_round.
    pose proof sine_value_5 as B.
    destruct (Rle_dec 0 (sine_value 5)); [|lra].
    apply Zfloor_eq. lra. }
  exists sine_samples. split; [apply CreateSineWave_data_eq|].
  pose proof (sine_samples_nth 5 ltac:(lia)) as N.
  change (Z.to_nat 5) with 5%nat in N. rewrite T in N.
  repeat split; try assumption.
  rewrite N, S. intros H. inversion H.
Qed.

Lemma sine_value_11025 : sine_value 11025 = 32767%R.
Proof.
  change 11025 with (25 + 100 * Z.of_nat 110).
  rewrite sine_value_period. apply sine_value_25.
Qed.

Lemma sine_value_33075 : sine_value 33075 = (-32767)%R.
Proof.
  change 33075 with (75 + 100 * Z.of_nat 330).
  rewrite sine_value_period. apply sine_value_75.
Qed.

(** Claim C1, as amended.  CreateSineWave fills 44100 samples; the one
    at index [i] is [32767 * sin(2 pi 441 i / 44100)] truncated toward
    zero, which is within 1 of the rounded value; the samples at 0, 11025
    and 33075 are 0, 32767 and -32767. *)
Theorem C1_samples_truncated (i : Z) (H : 0 <= i < 44100) :
  exists data,
    CreateSineWave_data = Some data /\
    List.length data = Z.to_nat 44100 /\
    nth_error data (Z.to_nat i) =
      Some (truncate (32767 * sin (2 * PI * 441 * IZR i / 44100))%R) /\
    (forall v, nth_error data (Z.to_nat i) = Some v ->
               spec_sample i - 1 <= v <= spec_sample i + 1) /\
    nth_error data (Z.to_nat 0) = Some 0 /\
    nth_error data (Z.to_nat 11025) = Some 32767 /\
    nth_error data (Z.to_nat 33075) = Some (-32767).
Proof.
  exists sine_samples. split; [apply CreateSineWave_data_eq|].
  split; [apply sine_samples_length|].
  rewrite !sine_samples_nth by lia.
  rewrite sine_value_0, sine_value_11025, sine_value_33075.
  rewrite <- sine_value_spec.
  split; [reflexivity|].
  split.
  { intros v E. injection E as <-. unfold spec_sample.
    rewrite <- sine_value_spec. apply truncate_round_close. }
  split; [f_equal; apply truncate_eq; [lia | lra]|].
  split; [f_equal; apply truncate_eq; [lia | lra]|].
  f_equal; apply truncate_eq_neg; [lia | lra].
Qed.

Lemma C1_samples_truncated_witness :
  0 <= 5 < 44100 /\
  exists data,
    CreateSineWave_data = Some data /\
    List.length data = Z.to_nat 44100 /\
    nth_error data (Z.to_nat 5) =
      Some (truncate (32767 * sin (2 * PI * 441 * IZR 5 / 44100))%R) /\
    (forall v, nth_error data (Z.to_nat 5) = Some v ->
               spec_sample 5 - 1 <= v <= spec_sample 5 + 1) /\
    nth_error data (Z.to_nat 0) = Some 0 /\
    nth_error data (Z.to_nat 11025) = Some 32767 /\
    nth_error data (Z.to_nat 33075) = Some (-32767).
Proof.
  split; [lia | apply (C1_samples_truncated 5); lia].
Defined.

(** ** The shape of the waveform *)

Section WaveformShape.
Local Open Scope R_scope.

(** Truncation toward zero commutes with negation. *)
Lemma truncate_opp x : truncate (- x) = (- truncate x)%Z.
Proof.
  destruct (Rtotal_order x 0) as [N | [-> | P]].
  - rewrite (truncate_neg x) by assumption.
    rewrite truncate_nonneg by lra. apply ZfloorN.
  - rewrite Ropp_0, truncate_nonneg by lra. now rewrite ZfloorZ.
  - rewrite (truncate_nonneg x) by lra.
    rewrite truncate_neg by lra. apply ZceilN.
Qed.

Lemma sine_value_half i : sine_value (i + 50) = - sine_value i.
Proof.
  unfold sine_value, M_PI.
  replace (IZR (i + 50) * 441 / 44100 * 2 * PI)
    with (IZR i * 441 / 44100 * 2 * PI + PI) by (rewrite plus_IZR; field).
  rewrite neg_sin. ring.
Qed.

Lemma sine_value_100 i : sine_value (i + 100) = sine_value i.
Proof.
  replace (i + 100)%Z with (i + 50 + 50)%Z by lia.
  rewrite !sine_value_half. ring.
Qed.

Lemma sine_value_50 : sine_value 50 = 0.
Proof.
  replace 50%Z with (0 + 50)%Z by lia.
  rewrite sine_value_half, sine_value_0. ring.
Qed.

End WaveformShape.

(** Sums over a run of indices. *)
Lemma sum_samples_app l1 l2 :
  sum_samples (l1 ++ l2) = sum_samples l1 + sum_samples l2.
Proof.
  unfold sum_samples. induction l1 as [|x l1 IH]; cbn; [reflexivity|].
  rewrite IH. lia.
Qed.

Lemma seq_add (d a n : nat) :
  seq (a + d) n = map (fun k => (k + d)%nat) (seq a n).
Proof.
  revert a. induction n as [|n IH]; intros a; [reflexivity|].
  cbn. f_equal. apply (IH (S a)).
Qed.

Lemma sum_half_periods (f : nat -> Z) :
  (forall k, f (k + 50)%nat = - f k) ->
  forall n a, sum_samples (map f (seq a (100 * n))) = 0.
Proof.
  intros H. induction n as [|n IH]; intros a.
  - reflexivity.
  - replace (100 * S n)%nat with (50 + (50 + 100 * n))%nat by lia.
    rewrite !seq_app, !map_app, !sum_samples_app, IH.
    rewrite (seq_add 50 a 50), map_map.
    assert (E : forall l, sum_samples (map (fun k => f (k + 50)%nat) l) =
                          - sum_samples (map f l)).
    { induction l as [|x l IHl]; [reflexivity|].
      cbn [map]. change (sum_samples (?x :: ?l)) with (x + sum_samples l).
      rewrite IHl, H. lia. }
    rewrite E. lia.
Qed.

(** X3.  The samples CreateSineWave computes add up to 0: truncation
    toward zero is odd, so each half period cancels the next, and the
    buffer holds 441 whole periods. *)
Theorem X3_wave_no_dc :
  exists data, CreateSineWave_data = Some data /\ sum_samples data = 0.
Proof.
  exists sine_samples. split; [apply CreateSineWave_data_eq|].
  unfold sine_samples.
  replace (Z.to_nat 44100) with (100 * 441)%nat by lia.
  apply sum_half_periods. intros k.
  rewrite Nat2Z.inj_add. change (Z.of_nat 50) with 50.
  now rewrite sine_value_half, truncate_opp.
Qed.

(** X1.  The waveform has a period of 100 samples (441 Hz at 44100 Hz)
    and changes sign over half a period, sample for sample. *)
Theorem X1_wave_period (i : Z) :
  0 <= i -> i + 100 < 44100 ->
  exists data a,
    CreateSineWave_data = Some data /\
    nth_error data (Z.to_nat i) = Some a /\
    nth_error data (Z.to_nat (i + 50)) = Some (- a) /\
    nth_error data (Z.to_nat (i + 100)) = Some a.
Proof.
  intros H0 H1.
  exists sine_samples, (truncate (sine_value i)).
  split; [apply CreateSineWave_data_eq|].
  rewrite !sine_samples_nth by lia.
  rewrite sine_value_100, sine_value_half, truncate_opp. auto.
Qed.

Lemma X1_wave_period_witness :
  0 <= 5 /\ 5 + 100 < 44100 /\
  exists data a,
    CreateSineWave_data = Some data /\
    nth_error data (Z.to_nat 5) = Some a /\
    nth_error data (Z.to_nat (5 + 50)) = Some (- a) /\
    nth_error data (Z.to_nat (5 + 100)) = Some a.
Proof.
  assert (H0 : 0 <= 5) by lia.
  assert (H1 : 5 + 100 < 44100) by lia.
  split; [exact H0|]. split; [exact H1|].
  exact (X1_wave_period 5 H0 H1).
Defined.

(** X2.  In each of the 441 periods the waveform starts at 0, is at full
    scale 32767 a quarter of a period later, back at 0 after half a
    period and at -32767 after three quarters. *)
Theorem X2_wave_landmarks (k : Z) :
  0 <= k < 441 ->
  exists data,
    CreateSineWave_data = Some data /\
    nth_error data (Z.to_nat (100 * k)) = Some 0 /\
    nth_error data (Z.to_nat (100 * k + 25)) = Some 32767 /\
    nth_error data (Z.to_nat (100 * k + 50)) = Some 0 /\
    nth_error data (Z.to_nat (100 * k + 75)) = Some (-32767).
Proof.
  intros H.
  assert (P : forall j, sine_value (j + 100 * k) = sine_value j).
  { intros j. rewrite <- (Z2Nat.id k) by lia. apply sine_value_period. }
  exists sine_samples. split; [apply CreateSineWave_data_eq|].
  rewrite !sine_samples_nth by lia.
  replace (100 * k) with (0 + 100 * k) by lia.
  replace (0 + 100 * k + 25) with (25 + 100 * k) by lia.
  replace (0 + 100 * k + 50) with (50 + 100 * k) by lia.
  replace (0 + 100 * k + 75) with (75 + 100 * k) by lia.
  rewrite !P, sine_value_0, sine_value_25, sine_value_50, sine_value_75.
  repeat split; f_equal.
  - apply truncate_eq; [lia | lra].
  - apply truncate_eq; [lia | lra].
  - apply truncate_eq; [lia | lra].
  - apply truncate_eq_neg; [lia | lra].
Qed.

Lemma X2_wave_landmarks_witness :
  0 <= 440 < 441 /\
  exists data,
    CreateSineWave_data = Some data /\
    nth_error data (Z.to_nat (100 * 440)) = Some 0 /\
    nth_error data (Z.to_nat (100 * 440 + 25)) = Some 32767 /\
    nth_error data (Z.to_nat (100 * 440 + 50)) = Some 0 /\
    nth_error data (Z.to_nat (100 * 440 + 75)) = Some (-32767).
Proof.
  assert (H : 0 <= 440 < 441) by lia.
  split; [exact H|]. exact (X2_wave_landmarks 440 H).
Defined.

(** X4.  A stored sample has the sign of the value computed and is less
    than 1 closer to zero than it: the conversion never overshoots. *)
Theorem X4_wave_error (i : Z) :
  0 <= i < 44100 ->
  exists data v,
    CreateSineWave_data = Some data /\
    nth_error data (Z.to_nat i) = Some v /\
    ((0 <= sine_value i)%R ->
       (0 <= IZR v <= sine_value i)%R /\ (sine_value i < IZR v + 1)%R) /\
    ((sine_value i < 0)%R ->
       (sine_value i <= IZR v <= 0)%R /\ (IZR v - 1 < sine_value i)%R).
Proof.
  intros H. exists sine_samples, (truncate (sine_value i)).
  split; [apply CreateSineWave_data_eq|].
  split; [now apply sine_samples_nth|].
  apply truncate_between.
Qed.

Lemma X4_wave_error_witness :
  0 <= 5 < 44100 /\
  exists data v,
    CreateSineWave_data = Some data /\
    nth_error data (Z.to_nat 5) = Some v /\
    ((0 <= sine_value 5)%R ->
       (0 <= IZR v <= sine_value 5)%R /\ (sine_value 5 < IZR v + 1)%R) /\
    ((sine_value 5 < 0)%R ->
       (sine_value 5 <= IZR v <= 0)%R /\ (IZR v - 1 < sine_value 5)%R).
Proof.
  assert (H : 0 <= 5 < 44100) by lia.
  split; [exact H|]. exact (X4_wave_error 5 H).
Defined.

(** ** Lists of resources *)

Lemma collect_app {A B} (f : A -> option B) l1 l2 :
  collect f (l1 ++ l2) = collect f l1 ++ collect f l2.
Proof.
  induction l1 as [|x l1 IH]; [reflexivity|].
  cbn. destruct (f x); cbn; now rewrite IH.
Qed.



(** ** The claims about the program *)

Section Claims.
Context {hdr : Headers}.

Lemma supported_channel_spec ch :
  supported_channel ch = false <-> ~ In ch [1; 2].
Proof.
  unfold supported_channel, supported_channels. cbn.
  rewrite !orb_false_iff, !Z.eqb_neq. intuition congruence.
Qed.

Lemma supported_format_spec fmt :
  supported_format fmt = false <->
  ~ In fmt [AUDIO_U8; AUDIO_S8; AUDIO_U16SYS; AUDIO_S16SYS].
Proof.
  unfold supported_format, supported_formats. cbn.
  rewrite !orb_false_iff, !Z.eqb_neq. intuition congruence.
Qed.

(** The table of channel counts is a function both ways. *)
Lemma supported_channels_functional ch m m' :
  In (ch, m) supported_channels -> In (ch, m') supported_channels -> m = m'.
Proof.
  unfold supported_channels. cbn. intros H H'.
  repeat match goal with
         | H : _ \/ _ |- _ => destruct H
         | H : (_, _) = (_, _) |- _ => injection H as ? ?
         | H : False |- _ => contradiction
         end; subst; try reflexivity; lia.
Qed.

Lemma supported_channels_injective ch ch' m :
  ALC_MONO_SOFT <> ALC_STEREO_SOFT ->
  In (ch, m) supported_channels -> In (ch', m) supported_channels -> ch = ch'.
Proof.
  unfold supported_channels. cbn. intros D H H'.
  repeat match goal with
         | H : _ \/ _ |- _ => destruct H
         | H : (_, _) = (_, _) |- _ => injection H as ? ?
         | H : False |- _ => contradiction
         end; subst; try reflexivity; congruence.
Qed.

Lemma supported_formats_functional fmt t t' :
  HeadersDistinct ->
  In (fmt, t) supported_formats -> In (fmt, t') supported_formats -> t = t'.
Proof.
  intros [] H H'. unfold supported_formats in *. cbn in H, H'.
  repeat match goal with
         | H : _ \/ _ |- _ => destruct H
         | H : (_, _) = (_, _) |- _ => injection H as ? ?
         | H : False |- _ => contradiction
         end; subst; try reflexivity; congruence.
Qed.

Lemma supported_formats_injective fmt fmt' t :
  HeadersDistinct ->
  In (fmt, t) supported_formats -> In (fmt', t) supported_formats -> fmt = fmt'.
Proof.
  intros [? ? ? ? ? ? ? N] H H'. unfold supported_formats in *. cbn in H, H'.
  inversion N as [|? ? N1 N']; subst. inversion N' as [|? ? N2 N'']; subst.
  inversion N'' as [|? ? N3 _]; subst. cbn in N1, N2, N3.
  repeat match goal with
         | H : _ \/ _ |- _ => destruct H
         | H : (_, _) = (_, _) |- _ => injection H as ? ?
         | H : False |- _ => contradiction
         end; subst; try reflexivity; exfalso; intuition congruence.
Qed.

(** Claim C2.  For each of the two supported channel counts and each of
    the four supported encodings, lines 139-168 of main build the
    attribute list without failing and without any call: the channel
    count gives its marker (1 mono, 2 stereo), the encoding gives its type
    marker, the rate obtained is stored as it is, and the list ends with
    0.  Both tables are one to one. *)
Theorem C2_supported_formats_negotiated
    (ch m fmt t : Z) (o : SDL_AudioSpec) (s : State) :
  HeadersDistinct ->
  In (ch, m) supported_channels ->
  In (fmt, t) supported_formats ->
  channels o = ch ->
  format o = fmt ->
  set_attrs o s = (Value (attrs_of m t (freq o)), s) /\
  attrs_of m t (freq o) =
    [Some ALC_FORMAT_CHANNELS_SOFT; Some m;
     Some ALC_FORMAT_TYPE_SOFT; Some t;
     Some ALC_FREQUENCY; Some (freq o);
     Some 0] ++ repeat None 9 /\
  (forall ch', In (ch', m) supported_channels -> ch' = ch) /\
  (forall fmt', In (fmt', t) supported_formats -> fmt' = fmt) /\
  (forall t', In (fmt, t') supported_formats -> t' = t).
Proof.
  intros D Hc Hf <- <-.
  split; [|split; [reflexivity|split; [|split]]].
  - destruct (set_attrs_cases o s)
      as [(m' & t' & Hm & Ht & _ & _ & Hrun) | (msg & [Hu | Hu] & _)].
    + rewrite Hrun.
      rewrite (supported_channels_functional _ _ _ Hc Hm).
      now rewrite (supported_formats_functional _ _ _ D Hf Ht).
    + exfalso. unfold supported_channel in Hu.
      assert (X : existsb (fun p => channels o =? fst p) supported_channels = true).
      { apply existsb_exists. eexists. split; [exact Hc|]. cbn. apply Z.eqb_refl. }
      congruence.
    + exfalso. unfold supported_format in Hu.
      assert (X : existsb (fun p => format o =? fst p) supported_formats = true).
      { apply existsb_exists. eexists. split; [exact Hf|]. cbn. apply Z.eqb_refl. }
      congruence.
  - intros ch' H. eapply supported_channels_injective; eauto. now destruct D.
  - intros fmt' H. eapply supported_formats_injective; eauto.
  - intros t' H. eapply supported_formats_functional; eauto.
Qed.

Ltac unfold_traces :=
  unfold t_finish, t_played, t_source, t_buffer, t_current, t_context, t_format,
    t_device, t_open, t_init, t_probe, CreateSineWave_events in *.

Lemma in_passes w source k n e :
  In e (passes w source k n) ->
  e = E_Sleep 10 \/ (exists r, e = E_alGetSourcei source AL_SOURCE_STATE r) \/
  exists r, e = E_alGetError r.
Proof.
  unfold passes. rewrite in_flat_map. intros (j & _ & H).
  cbn in H. destruct H as [<-|[<-|[<-|[]]]]; eauto.
Qed.

(** Claim C4.  When the channel count obtained is neither 1 nor 2, or
    the encoding obtained is none of the four supported ones, main returns
    1 and has not called [alcLoopbackOpenDeviceSOFT]; the attribute list is
    not built, from whatever state. *)
Theorem C4_unsupported_fails_before_device (w : World) (fuel : nat) :
  ~ In (channels (w_obtained w)) [1; 2] \/
  ~ In (format (w_obtained w)) [AUDIO_U8; AUDIO_S8; AUDIO_U16SYS; AUDIO_S16SYS] ->
  fst (run_main w fuel) = Stop (Return 1) /\
  (forall name r,
      ~ In (E_alcLoopbackOpenDeviceSOFT name r) (calls (snd (run_main w fuel)))) /\
  (forall s, fst (set_attrs (w_obtained w) s) = Stop (Return 1)).
Proof.
  intros U.
  assert (U' : supported_channel (channels (w_obtained w)) = false \/
               supported_format (format (w_obtained w)) = false).
  { destruct U as [U|U]; [left; now apply supported_channel_spec
                         | right; now apply supported_format_spec]. }
  split; [|split].
  - destruct (main_paths w fuel); try reflexivity.
    destruct U'; congruence.
  - intros name r.
    destruct (main_paths w fuel); unfold_traces; cbn;
      try (intuition discriminate).
    destruct U'; congruence.
  - intros s.
    destruct (set_attrs_cases (w_obtained w) s)
      as [(m' & t' & _ & _ & Sc & Sf & _) | (msg & _ & ->)]; [|reflexivity].
    destruct U'; congruence.
Qed.

(** Claim C6.  If the loop condition (no error on the query and the
    state observed is "playing") holds after each of the passes 0 to
    [n - 1] and fails after pass [n], the loop makes exactly the passes 0
    to [n], each a [Sleep(10)], a state query and an error query, and
    ends; it has not ended after any smaller number of passes. *)
Theorem C6_polling_loop (w : World) (n fuel : nat) (source : Z) (s : State) :
  (forall j, (j < n)%nat -> keeps_polling w j = true) ->
  keeps_polling w n = false ->
  (w_poll_error w n = AL_NO_ERROR -> observed w n <> None) ->
  (n < fuel)%nat ->
  poll w fuel 0 source None s =
    (Value tt,
     log s (flat_map
              (fun k => [E_Sleep 10;
                         E_alGetSourcei source AL_SOURCE_STATE
                                        (w_source_state w k);
                         E_alGetError (w_poll_error w k)])
              (seq 0 (S n)))) /\
  (forall f, (f <= n)%nat ->
     poll w f 0 source None s =
       (Stop OutOfFuel, log s (passes w source 0 f))).
Proof.
  intros Hk Hs Hd Hf. split.
  - apply (poll_stops w n fuel 0%nat source s); assumption.
  - intros f Hle. apply (poll_out_of_fuel w f 0%nat source s).
    intros j Hj. apply Hk. cbn. lia.
Qed.

(** Claim C7.  Given the address of main's [playback] as its user data,
    RenderSDLSamples calls [alcRenderSamplesSOFT] once, with the device of
    [playback], the destination it was given, and the byte length divided
    by the frame size; main registers it with that address. *)
Theorem C7_RenderSDLSamples_frames (w : World) (s : State) (stream len : Z) :
  alcRenderSamplesSOFT_ptr (procs s) <> NULL ->
  FrameSize (playback s) <> 0 ->
  ~ (len = INT_MIN /\ FrameSize (playback s) = -1) ->
  RenderSDLSamples w (w_playback_addr w) stream len s =
    (Value tt,
     log s [E_alcRenderSamplesSOFT (Device (playback s)) stream
              (Z.quot len (FrameSize (playback s)))]) /\
  (0 <= len -> 0 < FrameSize (playback s) ->
   Z.quot len (FrameSize (playback s)) = len / FrameSize (playback s)) /\
  userdata (desired_spec w) = w_playback_addr w /\
  callback (desired_spec w) = Some fn_RenderSDLSamples.
Proof.
  intros Hp Hf Ho. split; [|split; [|split; reflexivity]].
  - unfold RenderSDLSamples, int_div, alcRenderSamplesSOFT, through, bind,
      get_playback, get_procs, emit, ret, halt, log.
    rewrite Z.eqb_refl. cbn.
    destruct (Z.eqb_spec (FrameSize (playback s)) 0) as [E|_]; [contradiction|].
    destruct (Z.eqb_spec len INT_MIN) as [E1|_];
      destruct (Z.eqb_spec (FrameSize (playback s)) (-1)) as [E2|_]; cbn;
      try (exfalso; apply Ho; now split);
      (destruct (Z.eqb_spec (alcRenderSamplesSOFT_ptr (procs s)) NULL);
       [contradiction | reflexivity]).
  - intros. apply Z.quot_div_nonneg; lia.
Qed.

(** Claim C8.  When [alGetError] reports an error, CreateSineWave
    returns 0 and deletes the buffer exactly when [alIsBuffer] says there
    is one (be it the name 0, when [alGenBuffers] itself failed), so a
    buffer that was generated and is recognised is released; when no
    error is reported, it deletes nothing and returns the name
    [alGenBuffers] wrote, which is not 0 by what OpenAL promises. *)
Theorem C8_CreateSineWave_result (w : World) (s : State) :
  exists buffer evs,
    CreateSineWave w s = (Value buffer, log s evs) /\
    acquired evs =
      (if w_gen_buffer w =? 0 then [] else [R_Buffer (w_gen_buffer w)]) /\
    (w_buffer_error w <> AL_NO_ERROR ->
       buffer = 0 /\
       In (E_alIsBuffer (w_gen_buffer w) (w_is_buffer w)) evs /\
       (w_is_buffer w <> 0 ->
          In (E_alDeleteBuffers 1 (w_gen_buffer w)) evs /\
          released evs = [R_Buffer (w_gen_buffer w)]) /\
       (w_is_buffer w = 0 ->
          (forall n b, ~ In (E_alDeleteBuffers n b) evs) /\
          released evs = []) /\
       (buffer_recognised w -> filter named (released evs) = acquired evs)) /\
    (w_buffer_error w = AL_NO_ERROR ->
       buffer = w_gen_buffer w /\
       released evs = [] /\
       (forall n b, ~ In (E_alDeleteBuffers n b) evs) /\
       (buffer_named w -> buffer <> 0 /\ acquired evs = [R_Buffer buffer])).
Proof.
  exists (CreateSineWave_result w), (CreateSineWave_events w).
  split; [apply CreateSineWave_run|].
  unfold CreateSineWave_result, CreateSineWave_events, acquired, released,
    buffer_recognised, buffer_named.
  destruct (Z.eqb_spec (w_buffer_error w) AL_NO_ERROR) as [E|E].
  - cbn. split; [now destruct (w_gen_buffer w =? 0)|].
    split; [contradiction|]. intros _.
    split; [reflexivity|]. split; [reflexivity|].
    split; [intros n b; intuition discriminate|].
    intros N. specialize (N E).
    destruct (Z.eqb_spec (w_gen_buffer w) 0); [contradiction|]. auto.
  - split.
    { rewrite collect_app. cbn [collect acquires app].
      destruct (w_gen_buffer w =? 0), (w_is_buffer w =? 0); reflexivity. }
    split; [|contradiction]. intros _. split; [reflexivity|].
    destruct (Z.eqb_spec (w_is_buffer w) 0) as [I|I]; cbn.
    + split; [auto 6|]. split; [contradiction|].
      split; [split; [intros n b; intuition discriminate | reflexivity]|].
      intros K. destruct (Z.eqb_spec (w_gen_buffer w) 0) as [G|G];
        [reflexivity | now apply K in G].
    + split; [auto 6|]. split; [split; [auto 8 | reflexivity]|].
      split; [contradiction|]. intros _.
      destruct (Z.eqb_spec (w_gen_buffer w) 0) as [G|G]; reflexivity.
Qed.

(** Claim C9.  On the path where main returns 0, the source is deleted
    and then, at once, the buffer that was attached to it; neither is
    deleted anywhere else in the run. *)
Theorem C9_source_deleted_before_buffer (w : World) (fuel : nat) :
  fst (run_main w fuel) = Stop (Return 0) ->
  exists source buffer pre post,
    calls (snd (run_main w fuel)) =
      pre ++ [E_alDeleteSources 1 source; E_alDeleteBuffers 1 buffer] ++ post /\
    In (E_alSourcei source AL_BUFFER buffer) pre /\
    (forall n x, ~ In (E_alDeleteSources n x) (pre ++ post)) /\
    (forall n x, ~ In (E_alDeleteBuffers n x) (pre ++ post)).
Proof.
  intros R.
  destruct (main_paths w fuel) as [| | | |m t o tr ? ? ? ? ? ? ? D];
    try discriminate.
  destruct D as [| |m t o tr ? ? C]; try discriminate.
  destruct C as [| | | |m t o tr ? ? ? ? P]; try discriminate.
  destruct P as [| |m t h n ? ? ? [-> | ->]|m t n Hb He Hp]; try discriminate.
  exists (w_gen_source w), (CreateSineWave_result w), (t_played w m t n),
    [E_SDL_PauseAudio 1; E_SDL_CloseAudio; E_alcDestroyContext (w_context w);
     E_alcCloseDevice (w_loopback_device w); E_SDL_Quit].
  split; [reflexivity|].
  assert (Hbe : (w_buffer_error w =? AL_NO_ERROR) = true).
  { unfold CreateSineWave_result in Hb.
    destruct (w_buffer_error w =? AL_NO_ERROR); [reflexivity | discriminate]. }
  split; [|split].
  - unfold t_played, t_source. rewrite !in_app_iff. left. right. cbn. auto.
  - intros k x. unfold_traces. rewrite Hbe.
    rewrite !in_app_iff. cbn.
    intros X; repeat (destruct X as [X|X]); try discriminate; try contradiction.
    apply in_passes in X. destruct X as [X|[[? X]|[? X]]]; discriminate.
  - intros k x. unfold_traces. rewrite Hbe.
    rewrite !in_app_iff. cbn.
    intros X; repeat (destruct X as [X|X]); try discriminate; try contradiction.
    apply in_passes in X. destruct X as [X|[[? X]|[? X]]]; discriminate.
Qed.

Lemma CreateSineWave_result_zero w :
  (CreateSineWave_result w =? 0) = true <-> buffer_fails w.
Proof.
  unfold CreateSineWave_result, buffer_fails.
  destruct (Z.eqb_spec (w_buffer_error w) AL_NO_ERROR) as [E|E].
  - rewrite Z.eqb_eq. intuition congruence.
  - rewrite Z.eqb_refl. intuition reflexivity.
Qed.

Lemma CreateSineWave_result_nonzero w :
  (CreateSineWave_result w =? 0) = false <-> ~ buffer_fails w.
Proof.
  rewrite <- CreateSineWave_result_zero.
  destruct (CreateSineWave_result w =? 0); intuition congruence.
Qed.

Ltac props :=
  repeat match goal with
         | H : (CreateSineWave_result _ =? 0) = true |- _ =>
             apply CreateSineWave_result_zero in H
         | H : (CreateSineWave_result _ =? 0) = false |- _ =>
             apply CreateSineWave_result_nonzero in H
         | H : (_ =? _) = true |- _ => apply Z.eqb_eq in H
         | H : (_ =? _) = false |- _ => apply Z.eqb_neq in H
         end.

Ltac all_paths w fuel :=
  let D := fresh "D" in let C := fresh "C" in let P := fresh "P" in
  destruct (main_paths w fuel) as [| | | |? ? ? ? ? ? ? ? ? ? ? D];
  [ | | | | destruct D as [| |? ? ? ? ? ? C];
            [ | | destruct C as [| | | |? ? ? ? ? ? ? ? P];
                  [ | | | | destruct P as [| |? ? ? ? ? ? ? [-> | ->]|] ] ] ].

Ltac failing :=
  unfold fails, setup_fails, negotiation_fails, device_fails, procs_loaded in *;
  props; intuition congruence.

(** The run of main when nothing fails and the loop stops in pass [n]. *)
Lemma main_completes w fuel n :
  procs_loaded w ->
  ~ fails w ->
  w_source_error w = AL_NO_ERROR ->
  (forall j, (j < n)%nat -> keeps_polling w j = true) ->
  keeps_polling w n = false ->
  (w_poll_error w n = AL_NO_ERROR -> observed w n <> None) ->
  (n < fuel)%nat ->
  fst (run_main w fuel) = Stop (Return 0).
Proof.
  intros L F S Hk Hs Hd Hf.
  pose proof (poll_stops w n fuel 0%nat (w_gen_source w) initial_state
                Hk Hs Hd Hf) as Hp.
  change (state_before w 0) with (@None Z) in Hp.
  all_paths w fuel; try reflexivity;
    try match goal with
        | H : poll_ends _ _ _ _ |- _ =>
            unfold poll_ends in H; rewrite Hp in H; discriminate
        end;
    exfalso; failing.
Qed.


Lemma collect_passes {B} (f : Event -> option B) w source k n :
  f (E_Sleep 10) = None ->
  (forall r, f (E_alGetSourcei source AL_SOURCE_STATE r) = None) ->
  (forall r, f (E_alGetError r) = None) ->
  collect f (passes w source k n) = [].
Proof.
  intros H1 H2 H3. unfold passes. revert k.
  induction n as [|n IH]; intros k; [reflexivity|].
  cbn [seq flat_map]. rewrite collect_app, IH. unfold pass_events. cbn.
  now rewrite H1, H2, H3.
Qed.

Lemma acquired_passes w source k n :
  collect acquires (passes w source k n) = [].
Proof. now apply collect_passes. Qed.

Lemma released_passes w source k n :
  collect releases (passes w source k n) = [].
Proof. now apply collect_passes. Qed.

(** The resources acquired and released on the paths that end in a
    [return]. *)
Ltac resources :=
  unfold acquired, released; unfold_traces; unfold CreateSineWave_result;
  rewrite ?collect_app, ?acquired_passes, ?released_passes;
  cbn [collect acquires releases app];
  repeat match goal with
         | H : (?a =? ?b) = _ |- context [?a =? ?b] => rewrite H
         end;
  cbn [collect acquires releases app].


(** The run of main when one of the listed failures occurs. *)
Lemma main_fails w fuel :
  procs_loaded w -> fails w -> fst (run_main w fuel) = Stop (Return 1).
Proof.
  intros L F. all_paths w fuel; try reflexivity; exfalso; failing.
Qed.





(** Membership in the calls of a path, event by event. *)
Ltac members :=
  unfold_traces; rewrite ?in_app_iff; cbn [In].

Ltac in_cases X :=
  repeat (destruct X as [X|X]); try discriminate X; try contradiction.



(** ** Further properties of the parts of the program *)

(** The run of RenderSDLSamples where it is defined. *)
Lemma RenderSDLSamples_run (w : World) (s : State) (stream len : Z) :
  alcRenderSamplesSOFT_ptr (procs s) <> NULL ->
  FrameSize (playback s) <> 0 ->
  ~ (len = INT_MIN /\ FrameSize (playback s) = -1) ->
  RenderSDLSamples w (w_playback_addr w) stream len s =
    (Value tt,
     log s [E_alcRenderSamplesSOFT (Device (playback s)) stream
              (Z.quot len (FrameSize (playback s)))]).
Proof.
  intros Hp Hf Ho.
  unfold RenderSDLSamples, int_div, alcRenderSamplesSOFT, through, bind,
    get_playback, get_procs, emit, ret, halt, log.
  rewrite Z.eqb_refl. cbn.
  destruct (Z.eqb_spec (FrameSize (playback s)) 0) as [E|_]; [contradiction|].
  destruct (Z.eqb_spec len INT_MIN) as [E1|_];
    destruct (Z.eqb_spec (FrameSize (playback s)) (-1)) as [E2|_]; cbn;
    try (exfalso; apply Ho; now split);
    (destruct (Z.eqb_spec (alcRenderSamplesSOFT_ptr (procs s)) NULL);
     [contradiction | reflexivity]).
Qed.

(** X6.  For a byte length that is not negative and a positive frame
    size, the frames RenderSDLSamples asks for fit the destination: they
    take at most [len] bytes and leave less than one frame unfilled. *)
Theorem X6_RenderSDLSamples_fits (w : World) (s : State) (stream len : Z) :
  alcRenderSamplesSOFT_ptr (procs s) <> NULL ->
  0 <= len ->
  0 < FrameSize (playback s) ->
  exists frames,
    RenderSDLSamples w (w_playback_addr w) stream len s =
      (Value tt,
       log s [E_alcRenderSamplesSOFT (Device (playback s)) stream frames]) /\
    0 <= frames * FrameSize (playback s) <= len /\
    len - frames * FrameSize (playback s) < FrameSize (playback s).
Proof.
  intros Hp Hl Hf.
  exists (Z.quot len (FrameSize (playback s))). split.
  - apply RenderSDLSamples_run; [assumption | lia | lia].
  - rewrite Z.quot_div_nonneg by lia.
    pose proof (Z.mul_div_le len (FrameSize (playback s)) Hf).
    pose proof (Z.mod_pos_bound len (FrameSize (playback s)) Hf).
    pose proof (Z.div_mod len (FrameSize (playback s)) ltac:(lia)).
    pose proof (Z.div_pos len (FrameSize (playback s)) Hl Hf).
    nia.
Qed.


(** X9.  Lines 139-168 look at the channel count first: an unsupported
    count is reported as such whatever the encoding, an unsupported
    encoding only when the count is supported; either way the [error:]
    label runs and main returns 1. *)
Theorem X9_set_attrs_diagnostic (o : SDL_AudioSpec) (s : State) :
  (supported_channel (channels o) = false ->
   set_attrs o s =
     (Stop (Return 1),
      log s (E_fprintf "Unhandled SDL channel count: %d\n"
               :: error_events (playback s)))) /\
  (supported_channel (channels o) = true ->
   supported_format (format o) = false ->
   set_attrs o s =
     (Stop (Return 1),
      log s (E_fprintf "Unhandled SDL format: 0x%04x\n"
               :: error_events (playback s)))).
Proof.
  unfold set_attrs, supported_channel, supported_format, supported_channels,
    supported_formats.
  cbn [existsb fst].
  unfold bind, fprintf_stderr, emit, ret.
  destruct (channels o =? 1), (channels o =? 2); cbn [orb];
    (split; [intros C | intros C F]; try discriminate C).
  all: try (rewrite error_run; unfold log; cbn; now rewrite <- app_assoc).
  all: destruct (format o =? AUDIO_U8), (format o =? AUDIO_S8),
         (format o =? AUDIO_U16SYS), (format o =? AUDIO_S16SYS);
       try discriminate F;
       rewrite error_run; unfold log; cbn; now rewrite <- app_assoc.
Qed.

(** X5.  CreateSineWave first generates a buffer and then hands
    [alBufferData] all 44100 samples it computed, with a size of two
    bytes per sample and the rate 44100, one second of sound; it leaves
    [playback] and the entry points alone. *)
Theorem X5_CreateSineWave_buffer (w : World) (s : State) :
  exists data rest,
    CreateSineWave_data = Some data /\
    calls (snd (CreateSineWave w s)) =
      calls s ++
      E_alGenBuffers 1 (w_gen_buffer w)
        :: E_alBufferData (w_gen_buffer w) AL_FORMAT_MONO16 data
                          (2 * Z.of_nat (List.length data)) 44100
        :: rest /\
    Z.of_nat (List.length data) = 44100 /\
    playback (snd (CreateSineWave w s)) = playback s /\
    procs (snd (CreateSineWave w s)) = procs s.
Proof.
  exists sine_samples. eexists.
  split; [apply CreateSineWave_data_eq|].
  rewrite CreateSineWave_run. unfold CreateSineWave_events.
  rewrite sine_samples_length.
  split; [cbn; reflexivity|]. split; [lia|]. split; reflexivity.
Qed.

Lemma observed_written w k : observed w k <> None -> observed w (S k) <> None.
Proof. cbn. destruct (w_source_state w (S k)); [discriminate | auto]. Qed.

Lemma poll_defined_later w fuel : forall k source s,
  observed w k <> None ->
  fst (poll w fuel (S k) source (state_before w (S k)) s) <> Stop Undefined.
Proof.
  induction fuel as [|fuel IH]; intros k source s O.
  - cbn. discriminate.
  - rewrite poll_unfold. apply observed_written in O.
    destruct (w_poll_error w (S k) =? AL_NO_ERROR); [|cbn; discriminate].
    destruct (observed w (S k)) as [st|] eqn:E; [|contradiction].
    destruct (st =? AL_PLAYING); [|cbn; discriminate].
    apply IH. rewrite E. discriminate.
Qed.

Lemma poll_undefined_iff w fuel source s :
  fst (poll w fuel 0 source None s) = Stop Undefined <->
  (0 < fuel)%nat /\ w_poll_error w 0 = AL_NO_ERROR /\
  w_source_state w 0 = None.
Proof.
  destruct fuel as [|fuel].
  - cbn. split; [discriminate | lia].
  - change (@None Z) with (state_before w 0) at 1. rewrite poll_unfold.
    assert (O : observed w 0 = w_source_state w 0).
    { cbn. now destruct (w_source_state w 0). }
    rewrite O.
    destruct (Z.eqb_spec (w_poll_error w 0) AL_NO_ERROR) as [E|E].
    + destruct (w_source_state w 0) as [st|] eqn:S0.
      * split; [|intros (_ & _ & X); discriminate X].
        intros X. exfalso.
        destruct (st =? AL_PLAYING); [|discriminate X].
        revert X. apply poll_defined_later. rewrite O. discriminate.
      * cbn. split; [intros _; repeat split; [lia | assumption] | reflexivity].
    + cbn. split; [discriminate | intros (_ & X & _); contradiction].
Qed.

(** X11.  The polling loop reads [state] before anything was written to
    it only in its first pass, and only when the first query writes
    nothing and yet reports no error; it never touches [playback] or the
    entry points. *)
Theorem X11_poll_uninitialised_read (w : World) (fuel : nat) (source : Z) (s : State) :
  (fst (poll w fuel 0 source None s) = Stop Undefined <->
   (0 < fuel)%nat /\ w_poll_error w 0 = AL_NO_ERROR /\
   w_source_state w 0 = None) /\
  playback (snd (poll w fuel 0 source None s)) = playback s /\
  procs (snd (poll w fuel 0 source None s)) = procs s.
Proof.
  split; [apply poll_undefined_iff|].
  destruct (poll_result w fuel 0%nat source) as (n & o & _ & _ & H).
  change (state_before w 0) with (@None Z) in H. rewrite H.
  split; reflexivity.
Qed.

Lemma diagnostics_app t1 t2 :
  diagnostics (t1 ++ t2) = (diagnostics t1 + diagnostics t2)%nat.
Proof. unfold diagnostics. now rewrite filter_app, length_app. Qed.

(** ** Further properties of main *)

Lemma diagnostics_passes w source k n : diagnostics (passes w source k n) = 0%nat.
Proof.
  unfold passes. revert k. induction n as [|n IH]; intros k; [reflexivity|].
  cbn [seq flat_map]. rewrite diagnostics_app, IH. reflexivity.
Qed.

(** A run that returned 0 had started playback. *)
Lemma main_completed_started w fuel :
  fst (run_main w fuel) = Stop (Return 0) ->
  In (E_SDL_PauseAudio 0) (calls (snd (run_main w fuel))).
Proof.
  all_paths w fuel; intros R; try discriminate R.
  members. tauto.
Qed.

(** X12.  With the three entry points loaded and a first state query
    that writes the state or reports an error, no run of main has
    undefined behaviour. *)
Theorem X12_main_no_undefined (w : World) (fuel : nat) :
  procs_loaded w ->
  (w_poll_error w 0 = AL_NO_ERROR -> w_source_state w 0 <> None) ->
  fst (run_main w fuel) <> Stop Undefined.
Proof.
  intros (L1 & L2 & L3) Hq.
  all_paths w fuel; try discriminate; props; try contradiction.
  match goal with H : poll_ends _ _ _ _ |- _ => unfold poll_ends in H;
    apply (f_equal fst) in H; cbn [fst] in H;
    apply poll_undefined_iff in H; destruct H as (_ & E & S0) end.
  intros _. now apply Hq.
Qed.

(** The run of main when only the set-up of the source fails. *)
Lemma main_aborts w fuel :
  procs_loaded w ->
  ~ fails w ->
  w_source_error w <> AL_NO_ERROR ->
  fst (run_main w fuel) = Stop Abort.
Proof.
  intros L F S.
  all_paths w fuel; try reflexivity; exfalso; failing.
Qed.

(** X13.  When the assert on the source fails, main stops with SDL, the
    audio stream, the device, the context and the buffer (and the source,
    if one was generated) acquired and nothing released; the error query
    is its last call. *)
Theorem X13_main_abort_leaks (w : World) (fuel : nat) :
  fst (run_main w fuel) = Stop Abort ->
  w_source_error w <> AL_NO_ERROR /\
  released (calls (snd (run_main w fuel))) = [] /\
  acquired (calls (snd (run_main w fuel))) =
    [R_SDL; R_Audio; R_Device (w_loopback_device w); R_Context (w_context w);
     R_Buffer (w_gen_buffer w)] ++
    (if w_gen_source w =? 0 then [] else [R_Source (w_gen_source w)]) /\
  exists pre,
    calls (snd (run_main w fuel)) = pre ++ [E_alGetError (w_source_error w)].
Proof.
  all_paths w fuel; intros R; try discriminate R.
  assert (B : (w_buffer_error w =? AL_NO_ERROR) = true /\
              (w_gen_buffer w =? 0) = false).
  { match goal with H : (CreateSineWave_result w =? 0) = false |- _ =>
      unfold CreateSineWave_result in H;
      destruct (w_buffer_error w =? AL_NO_ERROR); [auto | discriminate H] end. }
  destruct B as [B1 B2].
  split; [now apply Z.eqb_neq|].
  split; [resources; reflexivity|].
  split.
  - resources. destruct (w_gen_source w =? 0); reflexivity.
  - match goal with
    | |- exists pre, t_source w ?m ?t = _ =>
        exists (t_buffer w m t ++
                [E_alGenSources 1 (w_gen_source w);
                 E_alSourcei (w_gen_source w) AL_BUFFER
                             (CreateSineWave_result w)])
    end.
    unfold t_source. now rewrite <- app_assoc.
Qed.

Ltac counted :=
  unfold_traces; rewrite ?diagnostics_app, ?diagnostics_passes;
  unfold diagnostics; cbn [filter is_diagnostic List.length Nat.add].

(** X14.  Provided [alGenBuffers] has written a name whenever no error
    is reported, a run that returns 1 printed exactly one diagnostic and
    a run that returns 0 printed none. *)
Theorem X14_main_diagnostics (w : World) (fuel : nat) (code : Z) :
  buffer_named w ->
  fst (run_main w fuel) = Stop (Return code) ->
  diagnostics (calls (snd (run_main w fuel))) =
    if code =? 0 then 0%nat else 1%nat.
Proof.
  intros Hn.
  all_paths w fuel; intros R; try discriminate R; injection R as <-;
    counted;
    repeat match goal with
           | |- context [if ?a =? ?b then _ else _] =>
               destruct (Z.eqb_spec a b)
           end; cbn; try reflexivity;
    exfalso; props; unfold buffer_fails, buffer_named in *;
    intuition congruence.
Qed.

(** The one context main creates. *)
Ltac created X :=
  revert X; members; intros X; in_cases X;
  try (injection X as <- <- <-; auto);
  try (destruct (w_buffer_error _ =? AL_NO_ERROR); cbn in X;
       [contradiction|];
       destruct (w_is_buffer _ =? 0); cbn in X; in_cases X);
  try (apply in_passes in X; destruct X as [X|[[? X]|[? X]]]; discriminate).

Ltac after_check :=
  unfold t_finish, t_played, t_source, t_buffer, t_current, t_context,
    t_format;
  rewrite <- ?app_assoc; cbn [app]; reflexivity.

(** X10.  Whenever main creates a context, its call before was the
    check of the render format, on the same device and for the rate and
    the markers of the attribute list, and the answer was not
    [ALC_FALSE]. *)
Theorem X10_main_context_checked (w : World) (fuel : nat) (d : Z) (a : Attrs) (c : Z) :
  In (E_alcCreateContext d a c) (calls (snd (run_main w fuel))) ->
  exists m t pre rest,
    calls (snd (run_main w fuel)) =
      pre ++
      E_alcIsRenderFormatSupportedSOFT d (freq (w_obtained w)) m t
        (w_format_supported w)
        :: E_alcCreateContext d a c :: rest /\
    w_format_supported w <> ALC_FALSE /\
    a = attrs_of m t (freq (w_obtained w)) /\
    d = w_loopback_device w /\ d <> NULL /\
    In (channels (w_obtained w), m) supported_channels /\
    In (format (w_obtained w), t) supported_formats.
Proof.
  all_paths w fuel; intros X;
    try (exfalso; created X; fail);
    match goal with
    | Hm : In (_, ?m) supported_channels, Ht : In (_, ?t) supported_formats
      |- _ =>
        assert (E : d = w_loopback_device w /\
                    a = attrs_of m t (freq (w_obtained w)) /\
                    c = w_context w) by (created X);
        destruct E as (-> & -> & ->);
        exists m, t, (t_device w); eexists;
        (split; [after_check|]); props; auto 8
    end.
Qed.

(** X8.  Once main has started playback, the callback it registered,
    run on the state main leaves, renders on the device main opened,
    [len / FramesToBytes(1, channels, type)] frames for the format
    negotiated; were that frame size 0, it would divide by zero. *)
Theorem X8_main_then_callback (w : World) (fuel : nat) (stream len : Z) :
  In (E_SDL_PauseAudio 0) (calls (snd (run_main w fuel))) ->
  w_proc_address w "alcRenderSamplesSOFT" <> NULL ->
  exists m t,
    In (channels (w_obtained w), m) supported_channels /\
    In (format (w_obtained w), t) supported_formats /\
    In (E_SDL_OpenAudio (desired_spec w) (w_SDL_OpenAudio w) (w_obtained w))
       (calls (snd (run_main w fuel))) /\
    (FramesToBytes 1 m t <> 0 ->
     ~ (len = INT_MIN /\ FramesToBytes 1 m t = -1) ->
     RenderSDLSamples w (userdata (desired_spec w)) stream len
                      (snd (run_main w fuel)) =
       (Value tt,
        log (snd (run_main w fuel))
            [E_alcRenderSamplesSOFT (w_loopback_device w) stream
               (Z.quot len (FramesToBytes 1 m t))])) /\
    (FramesToBytes 1 m t = 0 ->
     RenderSDLSamples w (userdata (desired_spec w)) stream len
                      (snd (run_main w fuel)) =
       (Stop Undefined, snd (run_main w fuel))).
Proof.
  intros S L.
  pose proof (main_started w fuel S) as (m & t & Hm & Ht & Hd & Hc & Hp & Hq).
  exists m, t. split; [exact Hm|]. split; [exact Ht|]. split; [|split].
  - clear Hp Hq. revert S. all_paths w fuel; members; intros X;
      try (in_cases X; fail); tauto.
  - intros F O.
    pose proof (RenderSDLSamples_run w (snd (run_main w fuel)) stream len) as H.
    rewrite Hp, Hq in H. cbn in H. now apply H.
  - intros F. unfold RenderSDLSamples.
    change (userdata (desired_spec w)) with (w_playback_addr w).
    rewrite Z.eqb_refl. unfold bind, get_playback, int_div, ret, halt.
    cbn [negb fst snd]. rewrite Hp. cbn [FrameSize]. rewrite F.
    reflexivity.
Qed.

End Claims.

(** ** Runs in the worlds defined above *)

Lemma le_headers_distinct : @HeadersDistinct le_headers.
Proof.
  constructor; cbn; try lia.
  repeat constructor; cbn; intuition lia.
Qed.

Lemma world_genfail_returns :
  fst (@run_main le_headers world_genfail 3) = Stop (Return 1).
Proof.
  apply (@main_fails le_headers world_genfail 3).
  - unfold procs_loaded, NULL. cbn. lia.
  - unfold fails, buffer_fails. right. right. right. left. cbn. lia.
Qed.

Lemma world_ok_loaded : procs_loaded world_ok.
Proof. unfold procs_loaded, NULL. cbn. lia. Qed.

Lemma world_ok_sound : ~ @fails le_headers world_ok.
Proof.
  unfold fails, setup_fails, negotiation_fails, device_fails, buffer_fails, NULL.
  cbn. intuition (try lia; try discriminate).
Qed.

Lemma world_ok_playing j :
  (j < 2)%nat -> @keeps_polling le_headers world_ok j = true.
Proof. intros H. destruct j as [|[|j]]; [reflexivity | reflexivity | lia]. Qed.

Lemma world_ok_completes :
  fst (@run_main le_headers world_ok 3) = Stop (Return 0).
Proof.
  apply (@main_completes le_headers world_ok 3 2).
  - exact world_ok_loaded.
  - exact world_ok_sound.
  - reflexivity.
  - exact world_ok_playing.
  - reflexivity.
  - cbn. discriminate.
  - lia.
Qed.



Lemma C2_supported_formats_negotiated_witness :
  @HeadersDistinct le_headers /\
  In (2, 0x1501) (@supported_channels le_headers) /\
  In (0x8010, 0x1402) (@supported_formats le_headers) /\
  @set_attrs le_headers obtained_stereo16 initial_state =
    (Value (@attrs_of le_headers 0x1501 0x1402 44100), initial_state).
Proof.
  split; [exact le_headers_distinct|].
  split; [cbn; auto|]. split; [cbn; auto 6|].
  apply (@C2_supported_formats_negotiated le_headers 2 0x1501 0x8010 0x1402
           obtained_stereo16 initial_state).
  - exact le_headers_distinct.
  - cbn; auto.
  - cbn; auto 6.
  - reflexivity.
  - reflexivity.
Defined.


Lemma C4_unsupported_fails_before_device_witness :
  ~ In (channels (w_obtained world_three_channels)) [1; 2] /\
  fst (@run_main le_headers world_three_channels 0) = Stop (Return 1).
Proof.
  assert (H : ~ In (channels (w_obtained world_three_channels)) [1; 2]).
  { cbn. lia. }
  split; [exact H|].
  exact (proj1 (@C4_unsupported_fails_before_device le_headers
                  world_three_channels 0 (or_introl H))).
Defined.


Lemma C6_polling_loop_witness :
  @poll le_headers world_ok 3 0 1 None initial_state =
    (Value tt,
     log initial_state
       [E_Sleep 10; E_alGetSourcei 1 0x1010 (Some 0x1012); E_alGetError 0;
        E_Sleep 10; E_alGetSourcei 1 0x1010 (Some 0x1012); E_alGetError 0;
        E_Sleep 10; E_alGetSourcei 1 0x1010 (Some 0x1014); E_alGetError 0]).
Proof.
  apply (@C6_polling_loop le_headers world_ok 2 3 1 initial_state).
  - exact world_ok_playing.
  - reflexivity.
  - cbn. discriminate.
  - lia.
Defined.

Lemma C7_RenderSDLSamples_frames_witness :
  RenderSDLSamples world_ok 4096 0 4096
    (mkState (mkPlaybackInfo 100 200 4) (mkProcs 7 7 7) []) =
  (Value tt,
   mkState (mkPlaybackInfo 100 200 4) (mkProcs 7 7 7)
     [E_alcRenderSamplesSOFT 100 0 1024]).
Proof.
  assert (P : alcRenderSamplesSOFT_ptr (mkProcs 7 7 7) <> NULL).
  { cbn. unfold NULL. lia. }
  assert (F : FrameSize (mkPlaybackInfo 100 200 4) <> 0).
  { cbn. lia. }
  assert (O : ~ (4096 = INT_MIN /\ FrameSize (mkPlaybackInfo 100 200 4) = -1)).
  { cbn. unfold INT_MIN. lia. }
  exact (proj1 (@C7_RenderSDLSamples_frames le_headers world_ok
                  (mkState (mkPlaybackInfo 100 200 4) (mkProcs 7 7 7) [])
                  0 4096 P F O)).
Defined.

Lemma C8_CreateSineWave_result_witness :
  exists evs,
    @CreateSineWave le_headers world_genfail initial_state =
      (Value 0, log initial_state evs) /\
    In (E_alDeleteBuffers 1 0) evs /\
    acquired evs = [] /\
    released evs = [R_Buffer 0].
Proof.
  assert (E : w_buffer_error world_genfail <> @AL_NO_ERROR le_headers).
  { cbn. lia. }
  assert (I : w_is_buffer world_genfail <> 0).
  { cbn. lia. }
  destruct (@C8_CreateSineWave_result le_headers world_genfail initial_state)
    as (buffer & evs & Hrun & Hacq & Herr & _).
  destruct (Herr E) as (-> & _ & Hdel & _).
  destruct (Hdel I) as [D R].
  exists evs. split; [exact Hrun|]. split; [exact D|].
  split; [exact Hacq | exact R].
Defined.

Lemma C9_source_deleted_before_buffer_witness :
  fst (@run_main le_headers world_ok 3) = Stop (Return 0) /\
  exists source buffer pre post,
    calls (snd (@run_main le_headers world_ok 3)) =
      pre ++ [E_alDeleteSources 1 source; E_alDeleteBuffers 1 buffer] ++ post.
Proof.
  split; [exact world_ok_completes|].
  destruct (@C9_source_deleted_before_buffer le_headers world_ok 3
              world_ok_completes) as (source & buffer & pre & post & H & _).
  now exists source, buffer, pre, post.
Defined.

(** ** Runs for the further properties *)

Lemma X6_RenderSDLSamples_fits_witness :
  exists frames,
    RenderSDLSamples world_ok 4096 0 4098
      (mkState (mkPlaybackInfo 100 200 4) (mkProcs 7 7 7) []) =
    (Value tt,
     mkState (mkPlaybackInfo 100 200 4) (mkProcs 7 7 7)
       [E_alcRenderSamplesSOFT 100 0 frames]) /\
    0 <= frames * 4 <= 4098 /\
    4098 - frames * 4 < 4.
Proof.
  assert (P : alcRenderSamplesSOFT_ptr (mkProcs 7 7 7) <> NULL).
  { cbn. unfold NULL. lia. }
  assert (L : 0 <= 4098) by lia.
  assert (F : 0 < FrameSize (mkPlaybackInfo 100 200 4)).
  { cbn. lia. }
  exact (X6_RenderSDLSamples_fits world_ok
           (mkState (mkPlaybackInfo 100 200 4) (mkProcs 7 7 7) [])
           0 4098 P L F).
Defined.


Lemma world_ok_started :
  In (E_SDL_PauseAudio 0) (calls (snd (@run_main le_headers world_ok 3))).
Proof. apply main_completed_started. exact world_ok_completes. Qed.

Lemma X8_main_then_callback_witness :
  In (E_SDL_PauseAudio 0) (calls (snd (@run_main le_headers world_ok 3))) /\
  exists m t,
    In (channels (w_obtained world_ok), m) (@supported_channels le_headers) /\
    In (format (w_obtained world_ok), t) (@supported_formats le_headers).
Proof.
  assert (L : w_proc_address world_ok "alcRenderSamplesSOFT" <> NULL).
  { cbn. unfold NULL. lia. }
  split; [exact world_ok_started|].
  destruct (@X8_main_then_callback le_headers world_ok 3 0 4096
              world_ok_started L) as (m & t & Hm & Ht & _).
  now exists m, t.
Defined.

Lemma X9_set_attrs_diagnostic_witness :
  @set_attrs le_headers (w_obtained world_three_channels) initial_state =
  (Stop (Return 1),
   log initial_state
       (E_fprintf "Unhandled SDL channel count: %d\n"
          :: error_events (playback initial_state))).
Proof.
  assert (U : @supported_channel le_headers
                (channels (w_obtained world_three_channels)) = false).
  { reflexivity. }
  exact (proj1 (@X9_set_attrs_diagnostic le_headers
                  (w_obtained world_three_channels) initial_state) U).
Defined.

Lemma world_not_current_creates :
  In (E_alcCreateContext 100 (@attrs_of le_headers 0x1501 0x1402 44100) 200)
     (calls (snd (@run_main le_headers world_not_current 0))).
Proof. vm_compute. repeat (first [left; reflexivity | right]). Qed.

Lemma X10_main_context_checked_witness :
  In (E_alcCreateContext 100 (@attrs_of le_headers 0x1501 0x1402 44100) 200)
     (calls (snd (@run_main le_headers world_not_current 0))) /\
  exists m t pre rest,
    calls (snd (@run_main le_headers world_not_current 0)) =
      pre ++
      E_alcIsRenderFormatSupportedSOFT 100 44100 m t 1
        :: E_alcCreateContext 100
             (@attrs_of le_headers 0x1501 0x1402 44100) 200 :: rest.
Proof.
  split; [exact world_not_current_creates|].
  destruct (@X10_main_context_checked le_headers world_not_current 0 100
              (@attrs_of le_headers 0x1501 0x1402 44100) 200
              world_not_current_creates)
    as (m & t & pre & rest & H & _).
  now exists m, t, pre, rest.
Defined.

Lemma X11_poll_uninitialised_read_witness :
  fst (@poll le_headers world_silent 1 0 1 None initial_state) =
  Stop Undefined.
Proof.
  assert (F : (0 < 1)%nat) by lia.
  assert (E : w_poll_error world_silent 0 = @AL_NO_ERROR le_headers).
  { reflexivity. }
  assert (S : w_source_state world_silent 0 = None) by reflexivity.
  exact (proj2 (proj1 (@X11_poll_uninitialised_read le_headers world_silent
                         1 1 initial_state))
               (conj F (conj E S))).
Defined.

Lemma X12_main_no_undefined_witness :
  procs_loaded world_ok /\
  fst (@run_main le_headers world_ok 3) <> Stop Undefined.
Proof.
  assert (L : procs_loaded world_ok).
  { unfold procs_loaded, NULL. cbn. lia. }
  assert (Q : w_poll_error world_ok 0 = @AL_NO_ERROR le_headers ->
              w_source_state world_ok 0 <> None).
  { cbn. discriminate. }
  split; [exact L|].
  exact (@X12_main_no_undefined le_headers world_ok 3 L Q).
Defined.

Lemma world_assert_aborts :
  fst (@run_main le_headers world_assert 3) = Stop Abort.
Proof.
  apply (@main_aborts le_headers world_assert 3).
  - unfold procs_loaded, NULL. cbn. lia.
  - unfold fails, setup_fails, negotiation_fails, device_fails, buffer_fails,
      NULL.
    cbn. intuition (try lia; try discriminate).
  - cbn. lia.
Qed.

Lemma X13_main_abort_leaks_witness :
  fst (@run_main le_headers world_assert 3) = Stop Abort /\
  released (calls (snd (@run_main le_headers world_assert 3))) = [] /\
  acquired (calls (snd (@run_main le_headers world_assert 3))) =
    [R_SDL; R_Audio; R_Device 100; R_Context 200; R_Buffer 1].
Proof.
  split; [exact world_assert_aborts|].
  destruct (@X13_main_abort_leaks le_headers world_assert 3
              world_assert_aborts) as (_ & R & A & _).
  split; [exact R | exact A].
Defined.

Lemma X14_main_diagnostics_witness :
  @buffer_named le_headers world_genfail /\
  fst (@run_main le_headers world_genfail 3) = Stop (Return 1) /\
  diagnostics (calls (snd (@run_main le_headers world_genfail 3))) = 1%nat.
Proof.
  assert (A : @buffer_named le_headers world_genfail).
  { unfold buffer_named. cbn. lia. }
  split; [exact A|]. split; [exact world_genfail_returns|].
  exact (@X14_main_diagnostics le_headers world_genfail 3 1 A
           world_genfail_returns).
Defined.
